(** * funk_svd_mod.fast_methods

    A shallow embedding of [src/funk_svd_mod/fast_methods.py]: the
    initialiser, the SGD epoch with its cosine-gated fairness projection
    on item factors, and the validation metrics.

    Numbers.  The kernels compute on float64.  The embedding is written
    once over an interface of scalar operations ([Scalar]) and is used at
    two instances: [float] (the kernel's binary64 numbers, on which every
    definition evaluates) and [R] (exact arithmetic, for the algebraic
    statements).  Nothing is assumed of the operations, so a statement
    proved over [Scalar] holds for both.

    Division.  Every kernel is decorated with a bare [@njit], whose
    division follows Python: a zero divisor raises [ZeroDivisionError]
    (numba's default [error_model='python']).  This is the [/] the kernels
    write themselves, the one of [_run_epoch]; the division inside
    [ndarray.mean] is the library's and does not test its divisor.

    Libraries.  numpy and numba are not part of the repository.  What the
    kernels call of them is modelled as numba runs it: [np.zeros] and
    [np.random.normal] (the allocation with its limits, then the zeros or
    the variates of a generator that is handed in), [ndarray.sum] and
    [np.dot] (one accumulator, in index order; a BLAS may associate the
    terms differently), [ndarray.mean] and [np.random.shuffle].

    Indexing.  An index [i] with [-len <= i < 0] addresses [len + i], as in
    Python; any other index outside [0, len) is modelled as [IndexError]
    (compiled without bounds checks the access is undefined).

    Rows.  A row of [X] is kept after the conversions of its first line,
    [int(X[i, 0]), int(X[i, 1]), X[i, 2]]: two integers and a scalar. *)

From Corelib Require Uint63Axioms.
From Stdlib Require Import ZArith Reals Lra Lia PrimFloat.
From stdpp Require Import base option list gmap.

Set Warnings "-inexact-float".
Set Default Proof Using "Type".

(** ** Scalars *)

Class Scalar (A : Type) : Type := {
  s_zero : A;
  s_add : A -> A -> A;
  s_sub : A -> A -> A;
  s_mul : A -> A -> A;
  s_div : A -> A -> A;
  s_sqrt : A -> A;
  s_abs : A -> A;
  s_ltb : A -> A -> bool;
  s_eqb : A -> A -> bool;
  s_of_Z : Z -> A
}.

(** ** Exceptions and the two effect layers *)

Inductive exn : Set :=
  ZeroDivisionError | IndexError | ValueError | MemoryError.

Inductive result (T : Type) : Type :=
| Ok (v : T)
| Raise (e : exn).
Arguments Ok {T} v.
Arguments Raise {T} e.

Definition rbind {T U} (r : result T) (k : T -> result U) : result U :=
  match r with
  | Ok v => k v
  | Raise e => Raise e
  end.

(** A computation on a store [S] that may raise; the store at the point
    of the exception is kept, since the arrays are mutated in place. *)
Definition M (S T : Type) : Type := S -> result T * S.

Definition ret {S T} (v : T) : M S T := fun st => (Ok v, st).

Definition bind {S T U} (c : M S T) (k : T -> M S U) : M S U :=
  fun st =>
    match c st with
    | (Ok v, st') => k v st'
    | (Raise e, st') => (Raise e, st')
    end.

Definition lift {S T} (r : result T) : M S T := fun st => (r, st).

Notation "'let*' x := c 'in' k" := (bind c (fun x => k))
  (at level 10, x pattern, c at level 100, k at level 200).

Notation "'let?' x := c 'in' k" := (rbind c (fun x => k))
  (at level 10, x pattern, c at level 100, k at level 200).

(** [for factor in range(n)] with the locals the body assigns as [acc]. *)
Fixpoint for_each {S Acc} (l : list nat) (body : nat -> Acc -> M S Acc)
    (acc : Acc) : M S Acc :=
  match l with
  | [] => ret acc
  | i :: l' => let* acc' := body i acc in for_each l' body acc'
  end.

Definition range (n : Z) : list nat := seq 0 (Z.to_nat n).

(** ** Arrays *)

Definition norm_index (len : nat) (i : Z) : option nat :=
  if ((0 <=? i) && (i <? Z.of_nat len))%Z then Some (Z.to_nat i)
  else if ((- Z.of_nat len <=? i) && (i <? 0))%Z
       then Some (Z.to_nat (Z.of_nat len + i))
       else None.

Definition getitem {T} (a : list T) (i : Z) : result T :=
  match norm_index (length a) i with
  | Some k => match a !! k with Some v => Ok v | None => Raise IndexError end
  | None => Raise IndexError
  end.

Definition setitem {T} (a : list T) (i : Z) (v : T) : result (list T) :=
  match norm_index (length a) i with
  | Some k => Ok (<[k := v]> a)
  | None => Raise IndexError
  end.

(** [a[i, j]] and [a[i, j] = v] on a two-dimensional array. *)
Definition getitem2 {T} (a : list (list T)) (i j : Z) : result T :=
  let? row := getitem a i in getitem row j.

Definition setitem2 {T} (a : list (list T)) (i j : Z) (v : T)
    : result (list (list T)) :=
  let? row := getitem a i in
  let? row' := setitem row j v in
  setitem a i row'.

(** [a[i] = vec]: the vector is broadcast to the row's shape. *)
Definition setrow {T} (a : list (list T)) (i : Z) (vec : list T)
    : result (list (list T)) :=
  let? row := getitem a i in
  if decide (length vec = length row) then setitem a i vec
  else match vec with
       | [v] => setitem a i (replicate (length row) v)
       | _ => Raise ValueError
       end.

(** ** The kernels *)

Section Kernels.
Context {A : Type} `{Scalar A}.

(** The four parameter arrays, owned by the training loop and updated
    in place. *)
Record params : Type := Params {
  bu : list A;
  bi : list A;
  pu : list (list A);
  qi : list (list A)
}.

Record row : Type := Row { row_user : Z; row_item : Z; row_rating : A }.

Definition with_bu (a : list A) (st : params) : params :=
  Params a (bi st) (pu st) (qi st).
Definition with_bi (a : list A) (st : params) : params :=
  Params (bu st) a (pu st) (qi st).
Definition with_pu (a : list (list A)) (st : params) : params :=
  Params (bu st) (bi st) a (qi st).
Definition with_qi (a : list (list A)) (st : params) : params :=
  Params (bu st) (bi st) (pu st) a.

Definition load {T} (f : params -> result T) : M params T :=
  fun st => (f st, st).

Definition store (f : params -> result params) : M params unit :=
  fun st =>
    match f st with
    | Ok st' => (Ok tt, st')
    | Raise e => (Raise e, st)
    end.

Definition read_bu (u : Z) : M params A := load (fun st => getitem (bu st) u).
Definition read_bi (i : Z) : M params A := load (fun st => getitem (bi st) i).
Definition read_pu (u : Z) (f : nat) : M params A :=
  load (fun st => getitem2 (pu st) u (Z.of_nat f)).
Definition read_qi (i : Z) (f : nat) : M params A :=
  load (fun st => getitem2 (qi st) i (Z.of_nat f)).

Definition write_bu (u : Z) (v : A) : M params unit :=
  store (fun st => let? a := setitem (bu st) u v in Ok (with_bu a st)).
Definition write_bi (i : Z) (v : A) : M params unit :=
  store (fun st => let? a := setitem (bi st) i v in Ok (with_bi a st)).
Definition write_pu (u : Z) (f : nat) (v : A) : M params unit :=
  store (fun st => let? a := setitem2 (pu st) u (Z.of_nat f) v in Ok (with_pu a st)).
Definition write_qi_row (i : Z) (vec : list A) : M params unit :=
  store (fun st => let? a := setrow (qi st) i vec in Ok (with_qi a st)).

(** *** numpy on vectors *)

(** [np.zeros(n)] once the array is allocated: [n] zeros.  In
    [_run_epoch] the size is [n_factors], the length of factor rows that
    are in memory already, and the allocation is taken to succeed; the
    limits of an allocation whose size the caller chooses are those of
    [allocate], below. *)
Definition np_zeros (n : Z) : result (list A) :=
  if (n <? 0)%Z then Raise ValueError else Ok (replicate (Z.to_nat n) s_zero).

(** [a - b], [a + b] and [c * a] on vectors of one length *)
Definition vsub (a b : list A) : list A := zip_with s_sub a b.
Definition vadd (a b : list A) : list A := zip_with s_add a b.
Definition vscale (c : A) (a : list A) : list A := (s_mul c) <$> a.

(** [a ** 2] and [np.square(a)] *)
Definition vsquare (a : list A) : list A := (fun x => s_mul x x) <$> a.

(** [a.sum()]: one accumulator, from 0, in index order *)
Definition vsum (a : list A) : A := fold_left s_add a s_zero.

(** [np.dot(a, b)] on two vectors: one accumulator, from 0, in index
    order *)
Definition np_dot (a b : list A) : result A :=
  if decide (length a = length b)
  then Ok (fold_left (fun acc xy => s_add acc (s_mul xy.1 xy.2)) (zip a b) s_zero)
  else Raise ValueError.

(** [x / y] under the decorator's error model *)
Definition truediv (x y : A) : result A :=
  if s_eqb y s_zero then Raise ZeroDivisionError else Ok (s_div x y).

(** [a.mean()].  numba's [ndarray.mean] is not under [src/]; it is
    modelled as numba computes it, the sum divided by [a.size] in the
    array's arithmetic with no test of the divisor: the mean of the empty
    array is [0 / 0].  (A numba whose mean tests the divisor raises
    [ZeroDivisionError] there instead.) *)
Definition vmean (a : list A) : A :=
  s_div (vsum a) (s_of_Z (Z.of_nat (length a))).

(** *** _run_epoch *)

Section Epoch.
Variables (global_mean : A) (n_factors : Z) (lr reg : A).
Variables (clusters_diff : list A) (is_women_dict is_men_dict : gset Z).

(** Lines 100-101: the factor terms added to [pred]. *)
Definition predict_body (user item : Z) (factor : nat) (pred : A) : M params A :=
  let* p := read_pu user factor in
  let* q := read_qi item factor in
  ret (s_add pred (s_mul p q)).

Definition predict_factors (user item : Z) (pred : A) : M params A :=
  for_each (range n_factors) (predict_body user item) pred.

(** Lines 114-121: fills [old_qi] and [new_qi], updates [pu[user]]. *)
Definition update_body (user item : Z) (err : A) (factor : nat)
    (old_new : list A * list A) : M params (list A * list A) :=
  let '(old_qi, new_qi) := old_new in
  let* puf := read_pu user factor in
  let* qif := read_qi item factor in
  let* q := read_qi item factor in
  let* old_qi := lift (setitem old_qi (Z.of_nat factor) q) in
  let* q := read_qi item factor in
  let* new_qi :=
    lift (setitem new_qi (Z.of_nat factor)
            (s_add q (s_mul lr (s_sub (s_mul err puf) (s_mul reg qif))))) in
  let* p := read_pu user factor in
  let* _ :=
    write_pu user factor
      (s_add p (s_mul lr (s_sub (s_mul err qif) (s_mul reg puf)))) in
  ret (old_qi, new_qi).

Definition update_factors (user item : Z) (err : A)
    (old_new : list A * list A) : M params (list A * list A) :=
  for_each (range n_factors) (update_body user item err) old_new.

(** Lines 128-130. *)
Definition cosine_similarity (embedding_diff : list A) : result A :=
  let? d := np_dot clusters_diff embedding_diff in
  truediv d (s_mul (s_sqrt (vsum (vsquare clusters_diff)))
                   (s_sqrt (vsum (vsquare embedding_diff)))).

(** Lines 123-140: the fairness projection and the commit of
    [qi[item]]. *)
Definition commit_item (item : Z) (old_qi new_qi : list A) : M params unit :=
  let is_woman := bool_decide (item ∈ is_women_dict) in
  let is_men := bool_decide (item ∈ is_men_dict) in
  let* cosine_sim :=
    (if is_woman || is_men
     then lift (cosine_similarity (vsub new_qi old_qi))
     else ret s_zero) in
  if s_ltb cosine_sim s_zero && is_woman
  then write_qi_row item (vsub old_qi (vscale cosine_sim (vsub new_qi old_qi)))
  else if s_ltb s_zero cosine_sim && is_men
  then write_qi_row item (vadd old_qi (vscale cosine_sim (vsub new_qi old_qi)))
  else write_qi_row item new_qi.

(** Lines 95-140: the body of the loop over the rows. *)
Definition run_epoch_row (x : row) : M params unit :=
  let user := row_user x in
  let item := row_item x in
  let rating := row_rating x in
  let* b_u := read_bu user in
  let* b_i := read_bi item in
  let* pred := predict_factors user item (s_add (s_add global_mean b_u) b_i) in
  let err := s_sub rating pred in
  let* b0 := read_bu user in
  let* b1 := read_bu user in
  let* _ := write_bu user (s_add b0 (s_mul lr (s_sub err (s_mul reg b1)))) in
  let* b0 := read_bi item in
  let* b1 := read_bi item in
  let* _ := write_bi item (s_add b0 (s_mul lr (s_sub err (s_mul reg b1)))) in
  let* old_qi := lift (np_zeros n_factors) in
  let* new_qi := lift (np_zeros n_factors) in
  let* (old_qi, new_qi) := update_factors user item err (old_qi, new_qi) in
  commit_item item old_qi new_qi.

Fixpoint run_epoch_rows (X : list row) : M params unit :=
  match X with
  | [] => ret tt
  | x :: X' => let* _ := run_epoch_row x in run_epoch_rows X'
  end.

(** The arrays returned are the arrays passed in: the value is the
    final store. *)
Definition _run_epoch (X : list row) : M params params :=
  let* _ := run_epoch_rows X in
  load (fun st => Ok st).

End Epoch.

(** *** _compute_val_metrics *)

Section Validation.
Variables (global_mean : A) (n_factors : Z).

(** Lines 174-187: the residual of one validation row. *)
Definition val_residual (x : row) : M params A :=
  let user := row_user x in
  let item := row_item x in
  let rating := row_rating x in
  let pred := global_mean in
  let* pred :=
    (if (-1 <? user)%Z
     then let* b := read_bu user in ret (s_add pred b)
     else ret pred) in
  let* pred :=
    (if (-1 <? item)%Z
     then let* b := read_bi item in ret (s_add pred b)
     else ret pred) in
  let* pred :=
    (if ((-1 <? user) && (-1 <? item))%Z
     then predict_factors n_factors user item pred
     else ret pred) in
  ret (s_sub rating pred).

Fixpoint val_residuals (X_val : list row) (residuals : list A)
    : M params (list A) :=
  match X_val with
  | [] => ret residuals
  | x :: X' =>
      let* r := val_residual x in
      val_residuals X' (residuals ++ [r])
  end.

Definition _compute_val_metrics (X_val : list row) : M params (A * A * A) :=
  let* residuals := val_residuals X_val [] in
  let loss := vmean (vsquare residuals) in
  let rmse := s_sqrt loss in
  let mae := vmean (s_abs <$> residuals) in
  ret (loss, rmse, mae).

End Validation.

(** *** _initialization *)

Section Initialization.
(** The generator: [gauss k] is the [k]-th standard normal variate it
    hands out; the store of the computation is the number of variates
    drawn so far. *)
Variable gauss : nat -> A.

(** The machine: the largest number of bytes its allocator provides for
    one array. *)
Variable capacity : Z.

(** The literal [.1] *)
Definition tenth : A := s_div (s_of_Z 1) (s_of_Z 10).

(** The allocation of a float64 array of a given shape, which [np.zeros]
    and [np.random.normal] perform before they fill the array.  numpy's
    allocation is not under [src/]; it is modelled as numba performs it: a
    negative dimension is refused ([ValueError], negative dimensions not
    allowed), a size of [2^63] bytes or more is refused ([ValueError],
    array is too big), and a size the allocator cannot provide fails with
    [MemoryError]. *)
Definition allocate (shape : list Z) : result unit :=
  if existsb (fun d => (d <? 0)%Z) shape then Raise ValueError
  else
    let bytes := (8 * fold_left Z.mul shape 1)%Z in
    if (2 ^ 63 <=? bytes)%Z then Raise ValueError
    else if (capacity <? bytes)%Z then Raise MemoryError
    else Ok tt.

(** [np.zeros(n)] for a size the caller chooses *)
Definition np_zeros_alloc (n : Z) : result (list A) :=
  let? _ := allocate [n] in
  np_zeros n.

(** Modelled from the spec: [np.random.normal(loc, scale, (rows, cols))]
    is numpy's and not under [src/].  The array is allocated and filled in
    row-major order with [loc + scale * z], [z] being the next standard
    normal variate of the generator (section 4.1: entries drawn
    independently from a normal distribution). *)
Definition random_normal (loc scale : A) (rows cols : Z)
    : M nat (list (list A)) :=
  fun k =>
    match allocate [rows; cols] with
    | Raise e => (Raise e, k)
    | Ok _ =>
        let r := Z.to_nat rows in
        let c := Z.to_nat cols in
        (Ok ((fun i =>
                (fun j => s_add loc (s_mul scale (gauss (k + i * c + j))))
                  <$> seq 0 c)
               <$> seq 0 r),
         k + r * c)
    end.

Definition _initialization (n_users n_items n_factors : Z) : M nat params :=
  let* bu := lift (np_zeros_alloc n_users) in
  let* bi := lift (np_zeros_alloc n_items) in
  let* pu := random_normal s_zero tenth n_users n_factors in
  let* qi := random_normal s_zero tenth n_items n_factors in
  ret (Params bu bi pu qi).

End Initialization.

End Kernels.

Arguments params : clear implicits.
Arguments row : clear implicits.

(** *** _shuffle *)

Section Shuffle.
Context {T : Type}.

(** The generator: [randint k n] is what its [k]-th call returns when asked
    for an integer of [0, n); the store of the computation is the number of
    calls made so far. *)
Variable randint : nat -> nat -> nat.

(** [x[i], x[j] = x[j], x[i]]: both rows are read, then both are written. *)
Definition swap_rows (X : list T) (i j : nat) : result (list T) :=
  let? xj := getitem X (Z.of_nat j) in
  let? xi := getitem X (Z.of_nat i) in
  let? X := setitem X (Z.of_nat i) xj in
  setitem X (Z.of_nat j) xi.

(** The loop of [np.random.shuffle], which is numpy's and not under
    [src/]: from the last row down to row 1, row [i] is exchanged with a
    row drawn among the rows [0 .. i]. *)
Fixpoint shuffle_from (i : nat) (X : list T) : M nat (list T) :=
  match i with
  | 0 => ret X
  | S i' =>
      fun k =>
        match swap_rows X i (randint k (S i)) with
        | Ok X' => shuffle_from i' X' (S k)
        | Raise e => (Raise e, S k)
        end
  end.

(** [np.random.shuffle(X)] *)
Definition np_random_shuffle (X : list T) : M nat (list T) :=
  shuffle_from (length X - 1) X.

(** The array is shuffled in place and returned: the value is the shuffled
    array. *)
Definition _shuffle (X : list T) : M nat (list T) :=
  let* X := np_random_shuffle X in
  ret X.

End Shuffle.

(** ** The two scalar instances *)

(** binary64, the kernels' own numbers *)
Definition float_of_Z (z : Z) : float :=
  match z with
  | Z0 => 0%float
  | Zpos _ => PrimFloat.of_uint63 (Uint63Axioms.of_Z z)
  | Zneg p => PrimFloat.opp (PrimFloat.of_uint63 (Uint63Axioms.of_Z (Zpos p)))
  end.

#[export] Instance float_scalar : Scalar float := {|
  s_zero := 0%float;
  s_add := PrimFloat.add;
  s_sub := PrimFloat.sub;
  s_mul := PrimFloat.mul;
  s_div := PrimFloat.div;
  s_sqrt := PrimFloat.sqrt;
  s_abs := PrimFloat.abs;
  s_ltb := PrimFloat.ltb;
  s_eqb := PrimFloat.eqb;
  s_of_Z := float_of_Z
|}.

(** exact real arithmetic *)
#[export] Instance Rlt_rel_dec : RelDecision Rlt := Rlt_dec.
#[export] Instance Req_rel_dec : EqDecision R := Req_dec_T.

#[export] Instance R_scalar : Scalar R := {|
  s_zero := 0%R;
  s_add := Rplus;
  s_sub := Rminus;
  s_mul := Rmult;
  s_div := Rdiv;
  s_sqrt := R_sqrt.sqrt;
  s_abs := Rabs;
  s_ltb := fun x y => bool_decide (x < y)%R;
  s_eqb := fun x y => bool_decide (x = y);
  s_of_Z := IZR
|}.


(** ** The row update in closed form

    What lines 95-140 compute on a row whose indices are in range, written
    as the specification words it: the prediction, the two bias steps, the
    two factor steps and the projected item factors.  The theorems below
    compare the kernels with these. *)

Section ClosedForm.
Context {A : Type} `{Scalar A}.
Variables (global_mean lr reg : A).

(** [global_mean + bu[user] + bi[item]], then [+= p * q] per factor *)
Definition prediction (b_u b_i : A) (p_u q_i : list A) : A :=
  fold_left (fun acc pq => s_add acc (s_mul pq.1 pq.2)) (zip p_u q_i)
    (s_add (s_add global_mean b_u) b_i).

(** [b + lr * (err - reg * b)] *)
Definition bias_step (err b : A) : A :=
  s_add b (s_mul lr (s_sub err (s_mul reg b))).

(** [x + lr * (err * y - reg * x)] *)
Definition factor_step (err x y : A) : A :=
  s_add x (s_mul lr (s_sub (s_mul err y) (s_mul reg x))).

Definition sgd_new_qi (err : A) (p_u q_i : list A) : list A :=
  zip_with (factor_step err) q_i p_u.

Definition sgd_new_pu (err : A) (p_u q_i : list A) : list A :=
  zip_with (factor_step err) p_u q_i.

(** The store once the biases and [pu[user]] of the row are updated. *)
Definition after_sgd (st : params A) (u i : nat) (b_u b_i : A)
    (p_u q_i : list A) (rating : A) : params A :=
  let err := s_sub rating (prediction b_u b_i p_u q_i) in
  Params (<[u := bias_step err b_u]> (bu st))
         (<[i := bias_step err b_i]> (bi st))
         (<[u := sgd_new_pu err p_u q_i]> (pu st))
         (qi st).

(** The item factors the fairness rule commits for a cosine [c]. *)
Definition fair_qi (is_woman is_men : bool) (c : A)
    (old_qi new_qi : list A) : list A :=
  if s_ltb c s_zero && is_woman
  then vsub old_qi (vscale c (vsub new_qi old_qi))
  else if s_ltb s_zero c && is_men
  then vadd old_qi (vscale c (vsub new_qi old_qi))
  else new_qi.

(** The row [(u, i, _)] addresses existing entries of the four arrays,
    and the two factor rows have [n_factors] entries. *)
Definition in_shape (st : params A) (n_factors : Z) (u i : nat)
    (b_u b_i : A) (p_u q_i : list A) : Prop :=
  bu st !! u = Some b_u ∧ bi st !! i = Some b_i ∧
  pu st !! u = Some p_u ∧ qi st !! i = Some q_i ∧
  Z.of_nat (length p_u) = n_factors ∧ Z.of_nat (length q_i) = n_factors.

(** The store has [n_users] users and [n_items] items, and every factor
    row has [n_factors] entries. *)
Definition well_shaped (n_users n_items : nat) (n_factors : Z)
    (st : params A) : Prop :=
  length (bu st) = n_users ∧ length (pu st) = n_users ∧
  length (bi st) = n_items ∧ length (qi st) = n_items ∧
  Forall (fun r => Z.of_nat (length r) = n_factors) (pu st) ∧
  Forall (fun r => Z.of_nat (length r) = n_factors) (qi st).

(** A training row addresses an existing user and an existing item. *)
Definition row_in_range (n_users n_items : nat) (x : row A) : Prop :=
  (0 ≤ row_user x < Z.of_nat n_users)%Z ∧ (0 ≤ row_item x < Z.of_nat n_items)%Z.

(** A validation row: each index is negative (unseen) or in range. *)
Definition val_row_in_range (n_users n_items : nat) (x : row A) : Prop :=
  (row_user x < Z.of_nat n_users)%Z ∧ (row_item x < Z.of_nat n_items)%Z.

(** No row of [X] has its item in either dictionary. *)
Definition untagged_rows (is_women_dict is_men_dict : gset Z)
    (X : list (row A)) : Prop :=
  Forall (fun x => (row_item x ∉ is_women_dict) ∧ (row_item x ∉ is_men_dict)) X.

(** The Euclidean norm, [np.sqrt((v ** 2).sum())], and how far a commit
    moves a row of [qi]. *)
Definition vnorm (v : list A) : A := s_sqrt (vsum (vsquare v)).

(** The sum of the products of the entries of two vectors. *)
Definition dot (a b : list A) : A :=
  fold_left (fun acc xy => s_add acc (s_mul xy.1 xy.2)) (zip a b) s_zero.

Definition movement (old_qi committed : list A) : A :=
  vnorm (vsub committed old_qi).

End ClosedForm.

(** An array of the given shape can be allocated: no dimension is
    negative and its size, 8 bytes an entry, is below [2^63] and within
    the allocator's capacity. *)
Definition allocatable (capacity : Z) (shape : list Z) : Prop :=
  Forall (fun d => (0 ≤ d)%Z) shape
  ∧ (8 * fold_left Z.mul shape 1 < 2 ^ 63)%Z
  ∧ (8 * fold_left Z.mul shape 1 ≤ capacity)%Z.

(** Two computations give the same result on every store that satisfies
    [P], and leave a store that satisfies [P]. *)
Definition agree_on {S T : Type} (P : S -> Prop) (c c' : M S T) : Prop :=
  forall s, P s -> c s = c' s /\ P (c s).2.

(** ** Scenarios

    The end-to-end scenario of the specification's section 8 (two users,
    two items, one factor, the row [(0, 1, 4.0)]), on binary64 and on the
    reals, with the parameters it expects after the row. *)

Definition e2e_params : params float :=
  Params [0; 0]%float [0; 0]%float [[0.1]; [0.2]]%float [[0.1]; [0.2]]%float.

Definition e2e_row : row float := Row 0 1 4%float.

Definition e2e_expected : params float :=
  Params [0.098; 0]%float [0; 0.098]%float
         [[0.1196]; [0.2]]%float [[0.1]; [0.2098]]%float.

(** Agreement of two binary64 parameter sets up to [tol] in every entry. *)
Definition close (tol x y : float) : bool :=
  PrimFloat.ltb (PrimFloat.abs (x - y)) tol.

Definition vclose (tol : float) (a b : list float) : bool :=
  bool_decide (length a = length b)
  && forallb (fun xy => close tol xy.1 xy.2) (zip a b).

Definition mclose (tol : float) (a b : list (list float)) : bool :=
  bool_decide (length a = length b)
  && forallb (fun xy => vclose tol xy.1 xy.2) (zip a b).

Definition params_close (tol : float) (a b : params float) : bool :=
  vclose tol (bu a) (bu b) && vclose tol (bi a) (bi b)
  && mclose tol (pu a) (pu b) && mclose tol (qi a) (qi b).

Definition e2e_params_R : params R :=
  Params [0; 0]%R [0; 0]%R [[0.1]; [0.2]]%R [[0.1]; [0.2]]%R.

Definition e2e_row_R : row R := Row 0 1 4%R.

Definition e2e_expected_R : params R :=
  Params [0.098; 0]%R [0; 0.098]%R [[0.1196]; [0.2]]%R [[0.1]; [0.2098]]%R.

(** A rating the model already predicts exactly ([3 + 0.5 * 2 = 4]) with
    [reg = 0]: the candidate equals [qi[item]] and [embedding_diff] is the
    zero vector. *)
Definition exact_fit_params : params float :=
  Params [0]%float [0]%float [[0.5]]%float [[2]]%float.

Definition exact_fit_row : row float := Row 0 0 4%float.

(** Two users whose rows move item 0 (women-tagged, [clusters_diff = [1; 0]],
    [lr = 1], [reg = 0], all biases and the mean 0) by [[-5; 0]] and by
    [[-3; 4]]: two violating updates of one length 5, with cosines [-1]
    and [-0.6]. *)
Definition damping_params : params float :=
  Params [0; 0]%float [0]%float [[-5; 0]; [-3; 4]]%float [[0; 0]]%float.

Definition damping_row (user : Z) : row float := Row user 0 1%float.

Definition damping_run (user : Z) : result unit * params float :=
  run_epoch_row 0%float 2 1%float 0%float [1; 0]%float {[0%Z]} ∅
    (damping_row user) damping_params.

(** The distance between [qi[0]] before and after the run of [damping_run]. *)
Definition damping_movement (user : Z) : option float :=
  committed ← qi (damping_run user).2 !! 0;
  old_qi ← qi damping_params !! 0;
  Some (movement old_qi committed).

(** What the row of [user] adds to [qi[0]] before the projection. *)
Definition damping_embedding_diff (user : nat) : option (list float) :=
  p_u ← pu damping_params !! user;
  old_qi ← qi damping_params !! 0;
  Some (vsub (sgd_new_qi 1%float 0%float
                (1 - prediction 0%float 0%float 0%float p_u old_qi)%float
                p_u old_qi)
          old_qi).

(** A store whose row [(0, 0, 1)] moves item 0 by [1e-200] ([lr = 1],
    [reg = 0]): the update is not zero, its square is below the smallest
    binary64 number. *)
Definition underflow_params : params float :=
  Params [0]%float [0]%float [[1e-200]]%float [[0]]%float.

(** ** Arrays and the monad *)

Section ArrayFacts.

Lemma norm_index_nat len k : k < len → norm_index len (Z.of_nat k) = Some k.
Proof.
  intros Hk. unfold norm_index.
  replace (0 <=? Z.of_nat k)%Z with true by (symmetry; apply Z.leb_le; lia).
  replace (Z.of_nat k <? Z.of_nat len)%Z with true by (symmetry; apply Z.ltb_lt; lia).
  cbn. by rewrite Nat2Z.id.
Qed.

Lemma getitem_nat {T} (a : list T) k v : a !! k = Some v → getitem a (Z.of_nat k) = Ok v.
Proof.
  intros Hv. unfold getitem.
  rewrite norm_index_nat by (by eapply lookup_lt_Some).
  by rewrite Hv.
Qed.

Lemma setitem_nat {T} (a : list T) k v :
  k < length a → setitem a (Z.of_nat k) v = Ok (<[k := v]> a).
Proof. intros Hk. unfold setitem. by rewrite norm_index_nat. Qed.

Lemma getitem2_nat {T} (m : list (list T)) i j r v :
  m !! i = Some r → r !! j = Some v →
  getitem2 m (Z.of_nat i) (Z.of_nat j) = Ok v.
Proof.
  intros Hr Hv. unfold getitem2.
  rewrite (getitem_nat _ _ _ Hr). cbn. by apply getitem_nat.
Qed.

Lemma setitem2_nat {T} (m : list (list T)) i j r v :
  m !! i = Some r → j < length r →
  setitem2 m (Z.of_nat i) (Z.of_nat j) v = Ok (<[i := <[j := v]> r]> m).
Proof.
  intros Hr Hj. unfold setitem2.
  rewrite (getitem_nat _ _ _ Hr). cbn.
  rewrite setitem_nat by done. cbn.
  apply setitem_nat. by eapply lookup_lt_Some.
Qed.

Lemma setrow_nat {T} (m : list (list T)) i r vec :
  m !! i = Some r → length vec = length r →
  setrow m (Z.of_nat i) vec = Ok (<[i := vec]> m).
Proof.
  intros Hr Hlen. unfold setrow.
  rewrite (getitem_nat _ _ _ Hr). cbn.
  rewrite decide_True by done.
  apply setitem_nat. by eapply lookup_lt_Some.
Qed.
End ArrayFacts.

Section MonadFacts.
Context {S T U : Type}.

Lemma bind_ok (c : M S T) (k : T → M S U) st v st' :
  c st = (Ok v, st') → bind c k st = k v st'.
Proof. intros Hc. unfold bind. by rewrite Hc. Qed.

Lemma bind_raise (c : M S T) (k : T → M S U) st e st' :
  c st = (Raise e, st') → bind c k st = (Raise e, st').
Proof. intros Hc. unfold bind. by rewrite Hc. Qed.
End MonadFacts.

(** ** Reads and writes of the store *)

Section StoreFacts.
Context {A : Type} `{Scalar A}.
Implicit Types (st : params A).

Lemma read_bu_ok st u v :
  bu st !! u = Some v → read_bu (Z.of_nat u) st = (Ok v, st).
Proof. intros Hv. unfold read_bu, load. by rewrite (getitem_nat _ _ _ Hv). Qed.

Lemma read_bi_ok st i v :
  bi st !! i = Some v → read_bi (Z.of_nat i) st = (Ok v, st).
Proof. intros Hv. unfold read_bi, load. by rewrite (getitem_nat _ _ _ Hv). Qed.

Lemma read_pu_ok st u f r v :
  pu st !! u = Some r → r !! f = Some v →
  read_pu (Z.of_nat u) f st = (Ok v, st).
Proof.
  intros Hr Hv. unfold read_pu, load. by rewrite (getitem2_nat _ _ _ _ _ Hr Hv).
Qed.

Lemma read_qi_ok st i f r v :
  qi st !! i = Some r → r !! f = Some v →
  read_qi (Z.of_nat i) f st = (Ok v, st).
Proof.
  intros Hr Hv. unfold read_qi, load. by rewrite (getitem2_nat _ _ _ _ _ Hr Hv).
Qed.

Lemma write_bu_ok st u v :
  u < length (bu st) →
  write_bu (Z.of_nat u) v st = (Ok tt, with_bu (<[u := v]> (bu st)) st).
Proof. intros Hu. unfold write_bu, store. by rewrite setitem_nat. Qed.

Lemma write_bi_ok st i v :
  i < length (bi st) →
  write_bi (Z.of_nat i) v st = (Ok tt, with_bi (<[i := v]> (bi st)) st).
Proof. intros Hi. unfold write_bi, store. by rewrite setitem_nat. Qed.

Lemma write_pu_ok st u f r v :
  pu st !! u = Some r → f < length r →
  write_pu (Z.of_nat u) f v st
  = (Ok tt, with_pu (<[u := <[f := v]> r]> (pu st)) st).
Proof.
  intros Hr Hf. unfold write_pu, store. by rewrite (setitem2_nat _ _ _ _ _ Hr Hf).
Qed.

Lemma write_qi_row_ok st i r vec :
  qi st !! i = Some r → length vec = length r →
  write_qi_row (Z.of_nat i) vec st = (Ok tt, with_qi (<[i := vec]> (qi st)) st).
Proof.
  intros Hr Hlen. unfold write_qi_row, store. by rewrite (setrow_nat _ _ _ _ Hr Hlen).
Qed.

Lemma with_pu_id st u r : pu st !! u = Some r → with_pu (<[u := r]> (pu st)) st = st.
Proof. intros Hr. destruct st; unfold with_pu; cbn in *. by rewrite list_insert_id. Qed.

End StoreFacts.

(** ** The two loops over the factors *)

Section LoopFacts.
Context {A : Type} `{Scalar A}.
Implicit Types (st : params A).

Lemma predict_factors_from st u i p_u q_i m : ∀ k pred,
  pu st !! u = Some p_u → qi st !! i = Some q_i →
  k + m ≤ length p_u → k + m ≤ length q_i →
  for_each (seq k m) (predict_body (Z.of_nat u) (Z.of_nat i)) pred st
  = (Ok (fold_left (fun acc pq => s_add acc (s_mul pq.1 pq.2))
           (zip (take m (drop k p_u)) (take m (drop k q_i))) pred), st).
Proof.
  induction m as [|m IH]; intros k pred Hp Hq Hkp Hkq; [done|].
  destruct (lookup_lt_is_Some_2 p_u k) as [x Hx]; [lia|].
  destruct (lookup_lt_is_Some_2 q_i k) as [y Hy]; [lia|].
  cbn [seq for_each].
  rewrite (bind_ok _ _ st (s_add pred (s_mul x y)) st).
  - rewrite IH by (done || lia).
    by rewrite (drop_S _ _ _ Hx), (drop_S _ _ _ Hy).
  - unfold predict_body.
    rewrite (bind_ok _ _ _ _ _ (read_pu_ok _ _ _ _ _ Hp Hx)).
    by rewrite (bind_ok _ _ _ _ _ (read_qi_ok _ _ _ _ _ Hq Hy)).
Qed.

Lemma predict_factors_ok st n_factors u i p_u q_i pred :
  pu st !! u = Some p_u → qi st !! i = Some q_i →
  Z.of_nat (length p_u) = n_factors → Z.of_nat (length q_i) = n_factors →
  predict_factors n_factors (Z.of_nat u) (Z.of_nat i) pred st
  = (Ok (fold_left (fun acc pq => s_add acc (s_mul pq.1 pq.2)) (zip p_u q_i) pred),
     st).
Proof.
  intros Hp Hq <- Hlq. unfold predict_factors, range.
  rewrite Nat2Z.id.
  apply Nat2Z.inj in Hlq.
  rewrite (predict_factors_from st u i p_u q_i); [|done|done|lia|lia].
  rewrite !drop_0. by rewrite !take_ge by lia.
Qed.

Lemma update_body_ok lr reg st u i err p_u q_i k x y old_qi new_qi :
  pu st !! u = Some p_u → qi st !! i = Some q_i →
  p_u !! k = Some x → q_i !! k = Some y →
  k < length old_qi → k < length new_qi →
  update_body lr reg (Z.of_nat u) (Z.of_nat i) err k (old_qi, new_qi) st
  = (Ok (<[k := y]> old_qi, <[k := factor_step lr reg err y x]> new_qi),
     with_pu (<[u := <[k := factor_step lr reg err x y]> p_u]> (pu st)) st).
Proof.
  intros Hp Hq Hx Hy Ho Hn. unfold update_body.
  rewrite (bind_ok _ _ _ _ _ (read_pu_ok _ _ _ _ _ Hp Hx)).
  rewrite (bind_ok _ _ _ _ _ (read_qi_ok _ _ _ _ _ Hq Hy)).
  rewrite (bind_ok _ _ _ _ _ (read_qi_ok _ _ _ _ _ Hq Hy)).
  rewrite (bind_ok _ _ st (<[k := y]> old_qi) st)
    by (unfold lift; by rewrite setitem_nat).
  rewrite (bind_ok _ _ _ _ _ (read_qi_ok _ _ _ _ _ Hq Hy)).
  rewrite (bind_ok _ _ st (<[k := factor_step lr reg err y x]> new_qi) st)
    by (unfold lift, factor_step; by rewrite setitem_nat).
  rewrite (bind_ok _ _ _ _ _ (read_pu_ok _ _ _ _ _ Hp Hx)).
  rewrite (bind_ok _ _ _ _ _
             (write_pu_ok _ _ _ _ _ Hp (lookup_lt_Some _ _ _ Hx))).
  done.
Qed.

Lemma update_factors_from lr reg u i err q_i m : ∀ k st p_u old_qi new_qi,
  pu st !! u = Some p_u → qi st !! i = Some q_i →
  k + m ≤ length p_u → k + m ≤ length q_i →
  k + m ≤ length old_qi → k + m ≤ length new_qi →
  for_each (seq k m) (update_body lr reg (Z.of_nat u) (Z.of_nat i) err)
    (old_qi, new_qi) st
  = (Ok (take k old_qi ++ take m (drop k q_i) ++ drop (k + m) old_qi,
         take k new_qi
           ++ zip_with (factor_step lr reg err)
                (take m (drop k q_i)) (take m (drop k p_u))
           ++ drop (k + m) new_qi),
     with_pu (<[u := take k p_u
                        ++ zip_with (factor_step lr reg err)
                             (take m (drop k p_u)) (take m (drop k q_i))
                        ++ drop (k + m) p_u]> (pu st)) st).
Proof.
  induction m as [|m IH]; intros k st p_u old_qi new_qi Hp Hq Hkp Hkq Hko Hkn.
  - cbn [seq for_each]. rewrite Nat.add_0_r, !take_0. cbn [zip_with app].
    rewrite !take_drop. by rewrite with_pu_id.
  - destruct (lookup_lt_is_Some_2 p_u k) as [x Hx]; [lia|].
    destruct (lookup_lt_is_Some_2 q_i k) as [y Hy]; [lia|].
    cbn [seq for_each].
    rewrite (bind_ok _ _ _ _ _
               (update_body_ok lr reg st u i err p_u q_i k x y old_qi new_qi
                  Hp Hq Hx Hy ltac:(lia) ltac:(lia))).
    rewrite (IH (S k) _ (<[k := factor_step lr reg err x y]> p_u)); cycle 1.
    + cbn. apply list_lookup_insert_eq. by eapply lookup_lt_Some.
    + done.
    + rewrite length_insert. lia.
    + lia.
    + rewrite length_insert. lia.
    + rewrite length_insert. lia.
    + replace (k + S m) with (S k + m) by lia.
      rewrite (drop_S _ _ _ Hx), (drop_S _ _ _ Hy).
      rewrite !drop_insert_lt by lia.
      rewrite !(take_S_r (<[k := _]> _) k _)
        by (apply list_lookup_insert_eq; lia).
      rewrite !take_insert_ge by lia.
      rewrite <- !app_assoc. cbn.
      by rewrite list_insert_insert_eq.
Qed.

Lemma update_factors_ok lr reg st n_factors u i err p_u q_i :
  pu st !! u = Some p_u → qi st !! i = Some q_i →
  Z.of_nat (length p_u) = n_factors → Z.of_nat (length q_i) = n_factors →
  update_factors n_factors lr reg (Z.of_nat u) (Z.of_nat i) err
    (replicate (Z.to_nat n_factors) s_zero, replicate (Z.to_nat n_factors) s_zero)
    st
  = (Ok (q_i, sgd_new_qi lr reg err p_u q_i),
     with_pu (<[u := sgd_new_pu lr reg err p_u q_i]> (pu st)) st).
Proof.
  intros Hp Hq <- Hlq. apply Nat2Z.inj in Hlq.
  unfold update_factors, range. rewrite Nat2Z.id.
  rewrite (update_factors_from lr reg u i err q_i _ 0 st p_u);
    [|done|done|lia|lia|rewrite length_replicate; lia|rewrite length_replicate; lia].
  rewrite !take_0, !drop_0. cbn [Nat.add app].
  rewrite !(drop_ge (replicate _ _)) by (rewrite length_replicate; lia).
  rewrite (drop_ge p_u) by lia.
  rewrite !take_ge by lia.
  by rewrite !app_nil_r.
Qed.

End LoopFacts.

(** ** One row of the epoch *)

Section RowFacts.
Context {A : Type} `{Scalar A}.
Variables (global_mean : A) (n_factors : Z) (lr reg : A).
Variables (clusters_diff : list A) (is_women_dict is_men_dict : gset Z).
Implicit Types (st : params A).

(** Lines 95-121 on a row in range: the biases and [pu[user]] take their
    SGD steps, [old_qi] is the row [qi[item]] and [new_qi] its candidate;
    what remains is the commit of [qi[item]]. *)
Lemma run_epoch_row_sgd st u i b_u b_i p_u q_i rating :
  in_shape st n_factors u i b_u b_i p_u q_i →
  run_epoch_row global_mean n_factors lr reg clusters_diff
    is_women_dict is_men_dict (Row (Z.of_nat u) (Z.of_nat i) rating) st
  = commit_item clusters_diff is_women_dict is_men_dict (Z.of_nat i) q_i
      (sgd_new_qi lr reg
         (s_sub rating (prediction global_mean b_u b_i p_u q_i)) p_u q_i)
      (after_sgd global_mean lr reg st u i b_u b_i p_u q_i rating).
Proof.
  intros (Hbu & Hbi & Hpu & Hqi & Hlp & Hlq).
  unfold run_epoch_row. cbn [row_user row_item row_rating].
  rewrite (bind_ok _ _ _ _ _ (read_bu_ok _ _ _ Hbu)).
  rewrite (bind_ok _ _ _ _ _ (read_bi_ok _ _ _ Hbi)).
  rewrite (bind_ok _ _ _ _ _
             (predict_factors_ok st n_factors u i p_u q_i _ Hpu Hqi Hlp Hlq)).
  fold (prediction global_mean b_u b_i p_u q_i).
  set (err := s_sub rating (prediction global_mean b_u b_i p_u q_i)).
  rewrite (bind_ok _ _ _ _ _ (read_bu_ok _ _ _ Hbu)).
  rewrite (bind_ok _ _ _ _ _ (read_bu_ok _ _ _ Hbu)).
  rewrite (bind_ok _ _ _ _ _
             (write_bu_ok st u _ (lookup_lt_Some _ _ _ Hbu))).
  set (st1 := with_bu _ st).
  rewrite (bind_ok _ _ _ _ _ (read_bi_ok st1 _ _ Hbi)).
  rewrite (bind_ok _ _ _ _ _ (read_bi_ok st1 _ _ Hbi)).
  rewrite (bind_ok _ _ _ _ _
             (write_bi_ok st1 i _ (lookup_lt_Some _ _ _ Hbi))).
  set (st2 := with_bi _ st1).
  assert (Hnf : (n_factors <? 0)%Z = false) by (apply Z.ltb_ge; lia).
  unfold np_zeros. rewrite Hnf.
  rewrite (bind_ok _ _ st2 (replicate (Z.to_nat n_factors) s_zero) st2) by done.
  rewrite (bind_ok _ _ st2 (replicate (Z.to_nat n_factors) s_zero) st2) by done.
  rewrite (bind_ok _ _ _ _ _
             (update_factors_ok lr reg st2 n_factors u i err p_u q_i
                Hpu Hqi Hlp Hlq)).
  done.
Qed.

Lemma after_sgd_qi st u i b_u b_i p_u q_i rating :
  qi (after_sgd global_mean lr reg st u i b_u b_i p_u q_i rating) = qi st.
Proof. done. Qed.

Lemma sgd_new_qi_length err p_u q_i :
  length p_u = length q_i → length (sgd_new_qi lr reg err p_u q_i) = length q_i.
Proof. intros Hl. unfold sgd_new_qi. rewrite length_zip_with. lia. Qed.

(** Lines 123-140 for an item in neither dictionary: no cosine is
    computed and the candidate is committed. *)
Lemma commit_item_untagged st i q_i old_qi new_qi :
  qi st !! i = Some q_i → length new_qi = length q_i →
  Z.of_nat i ∉ is_women_dict → Z.of_nat i ∉ is_men_dict →
  commit_item clusters_diff is_women_dict is_men_dict (Z.of_nat i)
    old_qi new_qi st
  = (Ok tt, with_qi (<[i := new_qi]> (qi st)) st).
Proof.
  intros Hq Hlen HW HM. unfold commit_item.
  rewrite (bool_decide_eq_false_2 _ HW), (bool_decide_eq_false_2 _ HM).
  cbn [orb]. rewrite (bind_ok _ _ st s_zero st) by done.
  rewrite !andb_false_r.
  by apply (write_qi_row_ok _ _ q_i).
Qed.

Lemma fair_qi_length w m c old_qi new_qi :
  length old_qi = length new_qi →
  length (fair_qi w m c old_qi new_qi) = length new_qi.
Proof.
  intros Hl. unfold fair_qi, vsub, vadd, vscale.
  repeat case_match; rewrite ?length_zip_with, ?length_fmap, ?length_zip_with; lia.
Qed.

(** Lines 123-140 for a tagged item whose cosine is [c]. *)
Lemma commit_item_tagged st i q_i old_qi new_qi c :
  qi st !! i = Some q_i →
  length old_qi = length q_i → length new_qi = length q_i →
  bool_decide (Z.of_nat i ∈ is_women_dict)
    || bool_decide (Z.of_nat i ∈ is_men_dict) = true →
  cosine_similarity clusters_diff (vsub new_qi old_qi) = Ok c →
  commit_item clusters_diff is_women_dict is_men_dict (Z.of_nat i)
    old_qi new_qi st
  = (Ok tt,
     with_qi (<[i := fair_qi (bool_decide (Z.of_nat i ∈ is_women_dict))
                       (bool_decide (Z.of_nat i ∈ is_men_dict))
                       c old_qi new_qi]> (qi st)) st).
Proof.
  intros Hq Hlo Hln Htag Hcos. unfold commit_item.
  rewrite Htag. rewrite (bind_ok _ _ st c st) by (unfold lift; by rewrite Hcos).
  assert (Hlen : length (fair_qi (bool_decide (Z.of_nat i ∈ is_women_dict))
                           (bool_decide (Z.of_nat i ∈ is_men_dict))
                           c old_qi new_qi) = length q_i)
    by (rewrite fair_qi_length; lia).
  revert Hlen. unfold fair_qi.
  repeat case_match; intros Hlen; by apply (write_qi_row_ok _ _ q_i).
Qed.

(** Lines 123-140 for a tagged item whose cosine cannot be computed: the
    exception leaves [qi] as it was. *)
Lemma commit_item_raise st i old_qi new_qi e :
  bool_decide (Z.of_nat i ∈ is_women_dict)
    || bool_decide (Z.of_nat i ∈ is_men_dict) = true →
  cosine_similarity clusters_diff (vsub new_qi old_qi) = Raise e →
  commit_item clusters_diff is_women_dict is_men_dict (Z.of_nat i)
    old_qi new_qi st
  = (Raise e, st).
Proof.
  intros Htag Hcos. unfold commit_item. rewrite Htag.
  apply bind_raise. unfold lift. by rewrite Hcos.
Qed.

Lemma run_epoch_row_untagged st u i b_u b_i p_u q_i rating :
  in_shape st n_factors u i b_u b_i p_u q_i →
  Z.of_nat i ∉ is_women_dict → Z.of_nat i ∉ is_men_dict →
  run_epoch_row global_mean n_factors lr reg clusters_diff
    is_women_dict is_men_dict (Row (Z.of_nat u) (Z.of_nat i) rating) st
  = (Ok tt,
     with_qi
       (<[i := sgd_new_qi lr reg
                 (s_sub rating (prediction global_mean b_u b_i p_u q_i))
                 p_u q_i]> (qi st))
       (after_sgd global_mean lr reg st u i b_u b_i p_u q_i rating)).
Proof.
  intros Hshape HW HM.
  rewrite (run_epoch_row_sgd _ _ _ _ _ _ _ _ Hshape).
  destruct Hshape as (_ & _ & _ & Hqi & Hlp & Hlq).
  rewrite (commit_item_untagged _ _ q_i); [done|done| |done|done].
  apply sgd_new_qi_length. lia.
Qed.

Lemma run_epoch_row_tagged st u i b_u b_i p_u q_i rating cos :
  in_shape st n_factors u i b_u b_i p_u q_i →
  bool_decide (Z.of_nat i ∈ is_women_dict)
    || bool_decide (Z.of_nat i ∈ is_men_dict) = true →
  cosine_similarity clusters_diff
    (vsub (sgd_new_qi lr reg
             (s_sub rating (prediction global_mean b_u b_i p_u q_i)) p_u q_i)
       q_i) = Ok cos →
  run_epoch_row global_mean n_factors lr reg clusters_diff
    is_women_dict is_men_dict (Row (Z.of_nat u) (Z.of_nat i) rating) st
  = (Ok tt,
     with_qi
       (<[i := fair_qi (bool_decide (Z.of_nat i ∈ is_women_dict))
                 (bool_decide (Z.of_nat i ∈ is_men_dict)) cos q_i
                 (sgd_new_qi lr reg
                    (s_sub rating (prediction global_mean b_u b_i p_u q_i))
                    p_u q_i)]> (qi st))
       (after_sgd global_mean lr reg st u i b_u b_i p_u q_i rating)).
Proof.
  intros Hshape Htag Hcos.
  rewrite (run_epoch_row_sgd _ _ _ _ _ _ _ _ Hshape).
  destruct Hshape as (_ & _ & _ & Hqi & Hlp & Hlq).
  rewrite (commit_item_tagged _ _ q_i _ _ cos); [done|done|done| |done|done].
  apply sgd_new_qi_length. lia.
Qed.

Lemma cosine_similarity_zero_divisor embedding_diff :
  length clusters_diff = length embedding_diff →
  s_eqb (s_mul (vnorm clusters_diff) (vnorm embedding_diff)) s_zero = true →
  cosine_similarity clusters_diff embedding_diff = Raise ZeroDivisionError.
Proof.
  intros Hlen Hzero. unfold cosine_similarity, np_dot.
  rewrite decide_True by done. cbn [rbind]. unfold truediv.
  fold (vnorm clusters_diff) (vnorm embedding_diff). by rewrite Hzero.
Qed.

Lemma cosine_similarity_computed embedding_diff :
  length clusters_diff = length embedding_diff →
  s_eqb (s_mul (vnorm clusters_diff) (vnorm embedding_diff)) s_zero = false →
  cosine_similarity clusters_diff embedding_diff
  = Ok (s_div (dot clusters_diff embedding_diff)
          (s_mul (vnorm clusters_diff) (vnorm embedding_diff))).
Proof.
  intros Hlen Hnz. unfold cosine_similarity, np_dot.
  rewrite decide_True by done. cbn [rbind]. unfold truediv.
  fold (vnorm clusters_diff) (vnorm embedding_diff). by rewrite Hnz.
Qed.

(** A tagged row in range whose cosine has a nonzero divisor: the commit
    is the fairness rule at the quotient of the dot product by the product
    of the two norms. *)
Lemma run_epoch_row_fair st u i b_u b_i p_u q_i rating :
  in_shape st n_factors u i b_u b_i p_u q_i →
  bool_decide (Z.of_nat i ∈ is_women_dict)
    || bool_decide (Z.of_nat i ∈ is_men_dict) = true →
  let new_qi :=
    sgd_new_qi lr reg
      (s_sub rating (prediction global_mean b_u b_i p_u q_i)) p_u q_i in
  let divisor := s_mul (vnorm clusters_diff) (vnorm (vsub new_qi q_i)) in
  length clusters_diff = length q_i →
  s_eqb divisor s_zero = false →
  run_epoch_row global_mean n_factors lr reg clusters_diff
    is_women_dict is_men_dict (Row (Z.of_nat u) (Z.of_nat i) rating) st
  = (Ok tt,
     with_qi
       (<[i := fair_qi (bool_decide (Z.of_nat i ∈ is_women_dict))
                 (bool_decide (Z.of_nat i ∈ is_men_dict))
                 (s_div (dot clusters_diff (vsub new_qi q_i)) divisor)
                 q_i new_qi]> (qi st))
       (after_sgd global_mean lr reg st u i b_u b_i p_u q_i rating)).
Proof.
  intros Hshape Htag new_qi divisor Hlen Hnz.
  apply run_epoch_row_tagged; [done|done|].
  apply cosine_similarity_computed; [|done].
  destruct Hshape as (_ & _ & _ & _ & Hlp & Hlq).
  unfold vsub, new_qi. rewrite length_zip_with, sgd_new_qi_length; lia.
Qed.

Lemma run_epoch_row_raise st u i b_u b_i p_u q_i rating e :
  in_shape st n_factors u i b_u b_i p_u q_i →
  bool_decide (Z.of_nat i ∈ is_women_dict)
    || bool_decide (Z.of_nat i ∈ is_men_dict) = true →
  cosine_similarity clusters_diff
    (vsub (sgd_new_qi lr reg
             (s_sub rating (prediction global_mean b_u b_i p_u q_i)) p_u q_i)
       q_i) = Raise e →
  run_epoch_row global_mean n_factors lr reg clusters_diff
    is_women_dict is_men_dict (Row (Z.of_nat u) (Z.of_nat i) rating) st
  = (Raise e, after_sgd global_mean lr reg st u i b_u b_i p_u q_i rating).
Proof.
  intros Hshape Htag Hcos.
  rewrite (run_epoch_row_sgd _ _ _ _ _ _ _ _ Hshape).
  by apply commit_item_raise.
Qed.

End RowFacts.

(** ** The epoch trainer *)

Section EpochTheorems.
Context {A : Type} `{Scalar A}.
Variables (global_mean : A) (n_factors : Z) (lr reg : A).
Variables (clusters_diff : list A) (is_women_dict is_men_dict : gset Z).
Implicit Types (st : params A).

(** C5. For a training row whose item is in neither [is_women_dict] nor
    [is_men_dict], [_run_epoch] commits to [qi[item]] the unconstrained SGD
    update [qi[item] + lr * (err * pu[user] - reg * qi[item])], computed
    from the values the row found; [clusters_diff] plays no part (the
    statement holds for every [clusters_diff], of any length and norm). *)
Theorem untagged_row_commits_sgd_update st u i b_u b_i p_u q_i rating :
  in_shape st n_factors u i b_u b_i p_u q_i →
  Z.of_nat i ∉ is_women_dict → Z.of_nat i ∉ is_men_dict →
  let err := s_sub rating (prediction global_mean b_u b_i p_u q_i) in
  let new_qi :=
    zip_with (fun q p => s_add q (s_mul lr (s_sub (s_mul err p) (s_mul reg q))))
      q_i p_u in
  run_epoch_row global_mean n_factors lr reg clusters_diff
    is_women_dict is_men_dict (Row (Z.of_nat u) (Z.of_nat i) rating) st
  = (Ok tt,
     with_qi (<[i := new_qi]> (qi st))
       (after_sgd global_mean lr reg st u i b_u b_i p_u q_i rating)).
Proof.
  intros Hshape HW HM err new_qi.
  by rewrite (run_epoch_row_untagged _ _ _ _ _ _ _ _ _ _ _ _ _ _ _ Hshape HW HM).
Qed.

(** C1, as the code has it.  For a training row whose item is in exactly
    one of the two dictionaries and whose cosine has a nonzero divisor
    [‖clusters_diff‖ * ‖embedding_diff‖], with
    [cos = dot(clusters_diff, embedding_diff) / divisor] and
    [embedding_diff = new_qi - old_qi]: a women-tagged item with [cos < 0]
    gets [old_qi - cos * embedding_diff], a men-tagged item with [cos > 0]
    gets [old_qi + cos * embedding_diff], and in every other case
    [qi[item] = new_qi]. *)
Theorem tagged_row_commits_by_fairness_rule st u i b_u b_i p_u q_i rating :
  in_shape st n_factors u i b_u b_i p_u q_i →
  (Z.of_nat i ∈ is_women_dict ∧ Z.of_nat i ∉ is_men_dict)
  ∨ ((Z.of_nat i ∉ is_women_dict) ∧ Z.of_nat i ∈ is_men_dict) →
  let err := s_sub rating (prediction global_mean b_u b_i p_u q_i) in
  let old_qi := q_i in
  let new_qi := sgd_new_qi lr reg err p_u q_i in
  let embedding_diff := vsub new_qi old_qi in
  let divisor := s_mul (vnorm clusters_diff) (vnorm embedding_diff) in
  let cos := s_div (dot clusters_diff embedding_diff) divisor in
  length clusters_diff = length q_i →
  s_eqb divisor s_zero = false →
  run_epoch_row global_mean n_factors lr reg clusters_diff
    is_women_dict is_men_dict (Row (Z.of_nat u) (Z.of_nat i) rating) st
  = (Ok tt,
     with_qi
       (<[i := if bool_decide (Z.of_nat i ∈ is_women_dict) && s_ltb cos s_zero
               then vsub old_qi (vscale cos embedding_diff)
               else if bool_decide (Z.of_nat i ∈ is_men_dict) && s_ltb s_zero cos
               then vadd old_qi (vscale cos embedding_diff)
               else new_qi]> (qi st))
       (after_sgd global_mean lr reg st u i b_u b_i p_u q_i rating)).
Proof.
  intros Hshape Htag err old_qi new_qi embedding_diff divisor cos Hlen Hnz.
  rewrite (run_epoch_row_fair _ _ _ _ _ _ _ _ _ _ _ _ _ _ _ Hshape);
    [| |done|done].
  - unfold fair_qi. fold err new_qi old_qi embedding_diff divisor cos.
    by rewrite !(andb_comm (s_ltb _ _)).
  - destruct Htag as [[HW _]|[_ HM]].
    + by rewrite (bool_decide_eq_true_2 _ HW).
    + rewrite (bool_decide_eq_true_2 _ HM). apply orb_true_r.
Qed.


(** C4, as the code has it.  For a training row whose item is tagged and
    whose divisor [‖clusters_diff‖ * ‖embedding_diff‖] is zero, the cosine
    is not 0: the division raises [ZeroDivisionError].  The row's updates of
    [bu], [bi] and [pu[user]] are already in the store, [qi] is as it was. *)
Theorem zero_norm_divisor_raises st u i b_u b_i p_u q_i rating :
  in_shape st n_factors u i b_u b_i p_u q_i →
  Z.of_nat i ∈ is_women_dict ∨ Z.of_nat i ∈ is_men_dict →
  let err := s_sub rating (prediction global_mean b_u b_i p_u q_i) in
  let old_qi := q_i in
  let new_qi := sgd_new_qi lr reg err p_u q_i in
  let embedding_diff := vsub new_qi old_qi in
  length clusters_diff = length q_i →
  s_eqb (s_mul (vnorm clusters_diff) (vnorm embedding_diff)) s_zero = true →
  run_epoch_row global_mean n_factors lr reg clusters_diff
    is_women_dict is_men_dict (Row (Z.of_nat u) (Z.of_nat i) rating) st
  = (Raise ZeroDivisionError,
     after_sgd global_mean lr reg st u i b_u b_i p_u q_i rating)
  ∧ qi (after_sgd global_mean lr reg st u i b_u b_i p_u q_i rating) = qi st.
Proof.
  intros Hshape Htag err old_qi new_qi embedding_diff Hlen Hzero.
  split; [|done].
  apply run_epoch_row_raise; [done| |].
  - destruct Htag as [HW|HM].
    + by rewrite (bool_decide_eq_true_2 _ HW).
    + rewrite (bool_decide_eq_true_2 _ HM). apply orb_true_r.
  - apply cosine_similarity_zero_divisor; [|done].
    destruct Hshape as (_ & _ & _ & _ & Hlp & Hlq).
    unfold vsub. rewrite length_zip_with, sgd_new_qi_length; lia.
Qed.

(** C8. On an empty training set [_run_epoch] returns at once: the four
    arrays it returns are the arrays it was given, and the store is the
    store it started from. *)
Theorem run_epoch_empty_is_noop st :
  _run_epoch global_mean n_factors lr reg clusters_diff
    is_women_dict is_men_dict [] st
  = (Ok st, st).
Proof. reflexivity. Qed.

End EpochTheorems.

(** ** The validator *)

Section ValidationFacts.
Context {A : Type} `{Scalar A}.
Variables (global_mean : A) (n_factors : Z).
Implicit Types (st : params A).

Lemma known_index u : (-1 <? Z.of_nat u)%Z = true.
Proof. apply Z.ltb_lt. lia. Qed.

Lemma unknown_index (k : Z) : (k < 0)%Z → (-1 <? k)%Z = false.
Proof. intros Hk. apply Z.ltb_ge. lia. Qed.

Lemma val_residual_known st u i b_u b_i p_u q_i rating :
  in_shape st n_factors u i b_u b_i p_u q_i →
  val_residual global_mean n_factors (Row (Z.of_nat u) (Z.of_nat i) rating) st
  = (Ok (s_sub rating (prediction global_mean b_u b_i p_u q_i)), st).
Proof.
  intros (Hbu & Hbi & Hpu & Hqi & Hlp & Hlq).
  unfold val_residual. cbn [row_user row_item row_rating].
  rewrite !known_index. cbn [andb].
  rewrite (bind_ok _ _ st (s_add global_mean b_u) st)
    by (by rewrite (bind_ok _ _ _ _ _ (read_bu_ok _ _ _ Hbu))).
  rewrite (bind_ok _ _ st (s_add (s_add global_mean b_u) b_i) st)
    by (by rewrite (bind_ok _ _ _ _ _ (read_bi_ok _ _ _ Hbi))).
  by rewrite (bind_ok _ _ _ _ _
                (predict_factors_ok st n_factors u i p_u q_i _ Hpu Hqi Hlp Hlq)).
Qed.

Lemma val_residual_unknown_user st user i b_i rating :
  (user < 0)%Z → bi st !! i = Some b_i →
  val_residual global_mean n_factors (Row user (Z.of_nat i) rating) st
  = (Ok (s_sub rating (s_add global_mean b_i)), st).
Proof.
  intros Hu Hbi. unfold val_residual. cbn [row_user row_item row_rating].
  rewrite known_index, (unknown_index _ Hu). cbn [andb].
  rewrite (bind_ok _ _ st global_mean st) by done.
  rewrite (bind_ok _ _ st (s_add global_mean b_i) st)
    by (by rewrite (bind_ok _ _ _ _ _ (read_bi_ok _ _ _ Hbi))).
  by rewrite (bind_ok _ _ st (s_add global_mean b_i) st).
Qed.

Lemma val_residual_unknown_item st u item b_u rating :
  (item < 0)%Z → bu st !! u = Some b_u →
  val_residual global_mean n_factors (Row (Z.of_nat u) item rating) st
  = (Ok (s_sub rating (s_add global_mean b_u)), st).
Proof.
  intros Hi Hbu. unfold val_residual. cbn [row_user row_item row_rating].
  rewrite known_index, (unknown_index _ Hi). cbn [andb].
  rewrite (bind_ok _ _ st (s_add global_mean b_u) st)
    by (by rewrite (bind_ok _ _ _ _ _ (read_bu_ok _ _ _ Hbu))).
  rewrite (bind_ok _ _ st (s_add global_mean b_u) st) by done.
  by rewrite (bind_ok _ _ st (s_add global_mean b_u) st).
Qed.

Lemma val_residual_unknown_both st user item rating :
  (user < 0)%Z → (item < 0)%Z →
  val_residual global_mean n_factors (Row user item rating) st
  = (Ok (s_sub rating global_mean), st).
Proof.
  intros Hu Hi. unfold val_residual. cbn [row_user row_item row_rating].
  rewrite (unknown_index _ Hu), (unknown_index _ Hi). cbn [andb].
  by rewrite !(bind_ok _ _ st global_mean st).
Qed.

(** With no row the residuals are the empty array, and each mean is the
    empty sum divided by the size 0. *)
Lemma compute_val_metrics_empty st :
  _compute_val_metrics global_mean n_factors [] st
  = (Ok (s_div s_zero (s_of_Z 0),
         s_sqrt (s_div s_zero (s_of_Z 0)),
         s_div s_zero (s_of_Z 0)), st).
Proof. reflexivity. Qed.

End ValidationFacts.

(** ** The initialiser *)

Section InitializationFacts.
Context {A : Type} `{Scalar A}.
Variable gauss : nat → A.
Variable capacity : Z.

Lemma np_zeros_ok (n : Z) :
  (0 ≤ n)%Z → np_zeros (A:=A) n = Ok (replicate (Z.to_nat n) s_zero).
Proof. intros Hn. unfold np_zeros. by rewrite (proj2 (Z.ltb_ge n 0) Hn). Qed.

Lemma no_negative_dimension (shape : list Z) :
  existsb (fun d => (d <? 0)%Z) shape = false ↔ Forall (fun d => (0 ≤ d)%Z) shape.
Proof.
  induction shape as [|d shape IH]; cbn; [done|].
  rewrite orb_false_iff, Forall_cons, IH, Z.ltb_ge. done.
Qed.

(** The allocation succeeds on the allocatable shapes and on no other. *)
Lemma allocate_ok (shape : list Z) :
  allocate capacity shape = Ok tt ↔ allocatable capacity shape.
Proof.
  unfold allocate, allocatable. rewrite <- no_negative_dimension.
  destruct (existsb _ shape); [by split; [|intros [? _]]|].
  destruct (Z.leb_spec (2 ^ 63) (8 * fold_left Z.mul shape 1%Z)) as [Hbig|Hbig].
  { split; [done|]. intros (_ & Hlt & _). lia. }
  destruct (Z.ltb_spec capacity (8 * fold_left Z.mul shape 1%Z)) as [Hmem|Hmem].
  { split; [done|]. intros (_ & _ & Hle). lia. }
  done.
Qed.

Lemma allocate_fails (shape : list Z) :
  ¬ allocatable capacity shape → ∃ e, allocate capacity shape = Raise e.
Proof.
  intros Hno. destruct (allocate capacity shape) as [[]|e] eqn:Ha.
  - by apply allocate_ok in Ha.
  - by exists e.
Qed.

Lemma allocatable_dec (shape : list Z) :
  allocatable capacity shape ∨ ¬ allocatable capacity shape.
Proof.
  destruct (allocate capacity shape) as [[]|e] eqn:Ha.
  - left. by apply allocate_ok.
  - right. intros Hs. apply allocate_ok in Hs. congruence.
Qed.

Lemma allocatable_dimension (shape : list Z) (d : Z) :
  allocatable capacity shape → d ∈ shape → (0 ≤ d)%Z.
Proof. intros [Hpos _] Hd. by apply (proj1 (Forall_forall _ _) Hpos). Qed.

Lemma np_zeros_alloc_ok (n : Z) :
  allocatable capacity [n] →
  np_zeros_alloc (A:=A) capacity n = Ok (replicate (Z.to_nat n) s_zero).
Proof.
  intros Hn. unfold np_zeros_alloc.
  rewrite (proj2 (allocate_ok [n]) Hn). cbn [rbind].
  apply np_zeros_ok. apply (allocatable_dimension [n]); [done|repeat constructor].
Qed.

Lemma random_normal_ok loc scale rows cols k :
  allocatable capacity [rows; cols] →
  ∃ m, random_normal gauss capacity loc scale rows cols k
       = (Ok m, k + Z.to_nat rows * Z.to_nat cols)
     ∧ length m = Z.to_nat rows
     ∧ Forall (fun r => length r = Z.to_nat cols) m.
Proof.
  intros Hrc. unfold random_normal.
  rewrite (proj2 (allocate_ok [rows; cols]) Hrc).
  eexists. split; [done|]. split.
  - by rewrite length_fmap, length_seq.
  - apply Forall_fmap, Forall_forall. intros i _. cbn.
    by rewrite length_fmap, length_seq.
Qed.

Lemma random_normal_fails loc scale rows cols k :
  ¬ allocatable capacity [rows; cols] →
  ∃ e, random_normal gauss capacity loc scale rows cols k = (Raise e, k).
Proof.
  intros Hrc. destruct (allocate_fails [rows; cols] Hrc) as [e He].
  exists e. unfold random_normal. by rewrite He.
Qed.

(** The four allocations of [_initialization], in the order it makes
    them. *)
Lemma initialization_ok (n_users n_items n_factors : Z) (k : nat) :
  allocatable capacity [n_users] → allocatable capacity [n_items] →
  allocatable capacity [n_users; n_factors] →
  allocatable capacity [n_items; n_factors] →
  ∃ pu0 qi0 k',
    _initialization gauss capacity n_users n_items n_factors k
    = (Ok (Params (replicate (Z.to_nat n_users) s_zero)
                  (replicate (Z.to_nat n_items) s_zero) pu0 qi0), k')
    ∧ length pu0 = Z.to_nat n_users
    ∧ Forall (fun r => length r = Z.to_nat n_factors) pu0
    ∧ length qi0 = Z.to_nat n_items
    ∧ Forall (fun r => length r = Z.to_nat n_factors) qi0.
Proof.
  intros Hu Hi Hpu Hqi.
  destruct (random_normal_ok s_zero tenth n_users n_factors k Hpu)
    as (pu0 & Hpu0 & Hlpu & Hrpu).
  destruct (random_normal_ok s_zero tenth n_items n_factors
              (k + Z.to_nat n_users * Z.to_nat n_factors) Hqi)
    as (qi0 & Hqi0 & Hlqi & Hrqi).
  exists pu0, qi0. eexists. split; [|done].
  unfold _initialization.
  rewrite (bind_ok _ _ k (replicate (Z.to_nat n_users) s_zero) k)
    by (unfold lift; by rewrite np_zeros_alloc_ok).
  rewrite (bind_ok _ _ k (replicate (Z.to_nat n_items) s_zero) k)
    by (unfold lift; by rewrite np_zeros_alloc_ok).
  rewrite (bind_ok _ _ _ _ _ Hpu0).
  by rewrite (bind_ok _ _ _ _ _ Hqi0).
Qed.

Lemma initialization_fails (n_users n_items n_factors : Z) (k : nat) :
  ¬ (allocatable capacity [n_users] ∧ allocatable capacity [n_items]
     ∧ allocatable capacity [n_users; n_factors]
     ∧ allocatable capacity [n_items; n_factors]) →
  ∃ e, (_initialization gauss capacity n_users n_items n_factors k).1 = Raise e.
Proof.
  intros Hno. unfold _initialization.
  destruct (allocate capacity [n_users]) as [[]|e] eqn:Hu.
  2:{ exists e. rewrite (bind_raise _ _ k e k); [done|].
      unfold lift, np_zeros_alloc. by rewrite Hu. }
  apply allocate_ok in Hu.
  rewrite (bind_ok _ _ k (replicate (Z.to_nat n_users) s_zero) k)
    by (unfold lift; by rewrite np_zeros_alloc_ok).
  destruct (allocate capacity [n_items]) as [[]|e] eqn:Hi.
  2:{ exists e. rewrite (bind_raise _ _ k e k); [done|].
      unfold lift, np_zeros_alloc. by rewrite Hi. }
  apply allocate_ok in Hi.
  rewrite (bind_ok _ _ k (replicate (Z.to_nat n_items) s_zero) k)
    by (unfold lift; by rewrite np_zeros_alloc_ok).
  destruct (allocate capacity [n_users; n_factors]) as [[]|e] eqn:Hpu.
  2:{ exists e. rewrite (bind_raise _ _ k e k); [done|].
      unfold random_normal. by rewrite Hpu. }
  apply allocate_ok in Hpu.
  destruct (random_normal_ok s_zero tenth n_users n_factors k Hpu)
    as (pu0 & Hpu0 & _).
  rewrite (bind_ok _ _ _ _ _ Hpu0).
  destruct (random_normal_fails s_zero tenth n_items n_factors
              (k + Z.to_nat n_users * Z.to_nat n_factors)) as [e He].
  { intros Hqi. by apply Hno. }
  exists e. by rewrite (bind_raise _ _ _ _ _ He).
Qed.

(** A negative dimension makes one of the four shapes unallocatable. *)
Lemma negative_not_allocatable (n_users n_items n_factors : Z) :
  (n_users < 0 ∨ n_items < 0 ∨ n_factors < 0)%Z →
  ¬ (allocatable capacity [n_users] ∧ allocatable capacity [n_items]
     ∧ allocatable capacity [n_users; n_factors]
     ∧ allocatable capacity [n_items; n_factors]).
Proof.
  intros Hneg (Hu & Hi & Hpu & _).
  assert (0 ≤ n_users)%Z
    by (apply (allocatable_dimension [n_users]); [done|repeat constructor]).
  assert (0 ≤ n_items)%Z
    by (apply (allocatable_dimension [n_items]); [done|repeat constructor]).
  assert (0 ≤ n_factors)%Z
    by (apply (allocatable_dimension [n_users; n_factors]); [done|repeat constructor]).
  lia.
Qed.

End InitializationFacts.

(** ** Exact arithmetic *)

Section RealFacts.
Implicit Types (v w : list R) (c : R).
Local Open Scope R_scope.

Lemma fold_add_from (f : R * R → R) (l : list (R * R)) (a : R) :
  fold_left (fun acc pq => acc + f pq) l a
  = a + fold_left (fun acc pq => acc + f pq) l 0.
Proof.
  revert a. induction l as [|x l IH]; intros a; cbn.
  - lra.
  - rewrite (IH (a + f x)), (IH (0 + f x)). lra.
Qed.

(** The dot product, as the specification reads it. *)
Lemma prediction_real (global_mean b_u b_i : R) (p_u q_i : list R) :
  prediction global_mean b_u b_i p_u q_i
  = global_mean + b_u + b_i
    + fold_left (fun acc pq => acc + pq.1 * pq.2) (zip p_u q_i) 0.
Proof.
  unfold prediction.
  exact (fold_add_from (fun pq => pq.1 * pq.2) (zip p_u q_i)
           (global_mean + b_u + b_i)).
Qed.

Lemma vsum_cons (x : R) v : vsum (x :: v) = x + vsum v.
Proof.
  unfold vsum. cbn.
  pose proof (fold_add_from (fun pq => pq.1) (zip v v)) as Hf.
  assert (Hz : ∀ a, fold_left Rplus v a
               = fold_left (fun acc (pq : R * R) => acc + pq.1) (zip v v) a).
  { induction v as [|y v IH]; intros a; [done|]. cbn. apply IH.
    intros b. apply (fold_add_from (fun pq => pq.1)). }
  rewrite !Hz, (Hf (0 + x)). lra.
Qed.

End RealFacts.

(** ** The claims on whole kernels *)

Lemma run_epoch_single {A : Type} `{Scalar A} global_mean n_factors lr reg
    clusters_diff is_women_dict is_men_dict (x : row A) (st st' : params A) :
  run_epoch_row global_mean n_factors lr reg clusters_diff
    is_women_dict is_men_dict x st = (Ok tt, st') →
  _run_epoch global_mean n_factors lr reg clusters_diff
    is_women_dict is_men_dict [x] st = (Ok st', st').
Proof.
  intros Hrow. unfold _run_epoch.
  rewrite (bind_ok _ _ st tt st'); [done|].
  cbn [run_epoch_rows]. by rewrite (bind_ok _ _ _ _ _ Hrow).
Qed.

Lemma e2e_in_shape_R :
  in_shape e2e_params_R 1 0 1 0%R 0%R [0.1%R] [0.2%R].
Proof. by repeat split. Qed.

Lemma e2e_run_R (clusters_diff : list R) :
  _run_epoch 3%R 1 0.1%R 0%R clusters_diff ∅ ∅ [e2e_row_R] e2e_params_R
  = (Ok e2e_expected_R, e2e_expected_R).
Proof.
  assert (Hexp :
    with_qi (<[1%nat := sgd_new_qi 0.1%R 0%R
                 (s_sub 4%R (prediction 3%R 0%R 0%R [0.1%R] [0.2%R]))
                 [0.1%R] [0.2%R]]> (qi e2e_params_R))
      (after_sgd 3%R 0.1%R 0%R e2e_params_R 0 1 0%R 0%R [0.1%R] [0.2%R] 4%R)
    = e2e_expected_R).
  { unfold e2e_expected_R, e2e_params_R, after_sgd, with_qi, sgd_new_qi,
      sgd_new_pu, prediction, factor_step, bias_step.
    cbn. f_equal; repeat f_equal; lra. }
  rewrite <- Hexp at 1 2.
  apply run_epoch_single.
  apply (run_epoch_row_untagged 3%R 1 0.1%R 0%R clusters_diff ∅ ∅
           e2e_params_R 0 1 0%R 0%R [0.1%R] [0.2%R] 4%R e2e_in_shape_R);
    set_solver.
Qed.

(** C2. On a training row in range, [_run_epoch] predicts
    [global_mean + bu[user] + bi[item] + dot(pu[user], qi[item])] (the
    factor terms added one by one), takes [err = rating - pred], steps both
    biases by [lr * (err - reg * b)], forms the candidate
    [new_qi = qi[item] + lr * (err * pu[user] - reg * qi[item])] and steps
    [pu[user]] by [lr * (err * qi[item] - reg * pu[user])], both from the
    values [pu[user]] and [qi[item]] had when the row started; the commit
    of [qi[item]] then receives that candidate.  On the scenario of section
    8 the parameters after the row are [bu[0] = 0.098], [bi[1] = 0.098],
    [pu[0] = 0.1196], [qi[1] = 0.2098], exactly over the reals and to
    within [1e-15] on binary64. *)
Theorem row_sgd_update_and_scenario :
  (∀ (A : Type) (HA : Scalar A) global_mean n_factors lr reg clusters_diff
     is_women_dict is_men_dict (st : params A) u i b_u b_i p_u q_i rating,
     in_shape st n_factors u i b_u b_i p_u q_i →
     let pred :=
       fold_left (fun acc pq => s_add acc (s_mul pq.1 pq.2)) (zip p_u q_i)
         (s_add (s_add global_mean b_u) b_i) in
     let err := s_sub rating pred in
     let new_qi :=
       zip_with (fun q p => s_add q (s_mul lr (s_sub (s_mul err p) (s_mul reg q))))
         q_i p_u in
     let new_pu :=
       zip_with (fun p q => s_add p (s_mul lr (s_sub (s_mul err q) (s_mul reg p))))
         p_u q_i in
     run_epoch_row global_mean n_factors lr reg clusters_diff
       is_women_dict is_men_dict (Row (Z.of_nat u) (Z.of_nat i) rating) st
     = commit_item clusters_diff is_women_dict is_men_dict (Z.of_nat i)
         q_i new_qi
         (Params (<[u := s_add b_u (s_mul lr (s_sub err (s_mul reg b_u)))]> (bu st))
                 (<[i := s_add b_i (s_mul lr (s_sub err (s_mul reg b_i)))]> (bi st))
                 (<[u := new_pu]> (pu st))
                 (qi st)))
  ∧ (∀ (global_mean b_u b_i : R) (p_u q_i : list R),
       prediction global_mean b_u b_i p_u q_i
       = (global_mean + b_u + b_i
          + fold_left (fun acc pq => acc + pq.1 * pq.2) (zip p_u q_i) 0)%R)
  ∧ (∀ clusters_diff : list R,
       _run_epoch 3%R 1 0.1%R 0%R clusters_diff ∅ ∅ [e2e_row_R] e2e_params_R
       = (Ok e2e_expected_R, e2e_expected_R))
  ∧ (∀ clusters_diff : list float,
       ∃ st' : params float,
         _run_epoch 3%float 1 0.1%float 0%float clusters_diff ∅ ∅
           [e2e_row] e2e_params
         = (Ok st', st')
         ∧ params_close 1e-15 st' e2e_expected = true).
Proof.
  split; [|split; [|split]].
  - intros A HA gm nf lr reg cd W Mn st u i b_u b_i p_u q_i rating Hshape.
    exact (run_epoch_row_sgd gm nf lr reg cd W Mn st u i b_u b_i p_u q_i
             rating Hshape).
  - exact prediction_real.
  - exact e2e_run_R.
  - intros cd. eexists. split; vm_compute; reflexivity.
Qed.

(** C3, as the code has it.  When the update of a tagged item violates
    its expected direction (women-tagged with [cos < 0], or men-tagged with
    [cos > 0]), every entry of the committed row is the entry of [old_qi]
    minus (women) or plus (men) [cos] times the entry of [embedding_diff]:
    the update is multiplied by the cosine itself, not by its complement.
    (The men rule is reached when the test [cos < 0] has failed, as it has
    for a positive cosine.)  [cos] is the quotient of [dot(clusters_diff, embedding_diff)] by the
    nonzero divisor [‖clusters_diff‖ * ‖embedding_diff‖]. *)
Theorem violating_commit_scales_update_by_cos {A : Type} `{Scalar A}
    global_mean n_factors lr reg clusters_diff is_women_dict is_men_dict
    (st : params A) u i b_u b_i p_u q_i rating :
  in_shape st n_factors u i b_u b_i p_u q_i →
  let err := s_sub rating (prediction global_mean b_u b_i p_u q_i) in
  let old_qi := q_i in
  let new_qi := sgd_new_qi lr reg err p_u q_i in
  let embedding_diff := vsub new_qi old_qi in
  let divisor := s_mul (vnorm clusters_diff) (vnorm embedding_diff) in
  let cos := s_div (dot clusters_diff embedding_diff) divisor in
  length clusters_diff = length q_i →
  s_eqb divisor s_zero = false →
  (Z.of_nat i ∈ is_women_dict ∧ s_ltb cos s_zero = true)
  ∨ (Z.of_nat i ∈ is_men_dict ∧ s_ltb s_zero cos = true
     ∧ s_ltb cos s_zero = false) →
  run_epoch_row global_mean n_factors lr reg clusters_diff
    is_women_dict is_men_dict (Row (Z.of_nat u) (Z.of_nat i) rating) st
  = (Ok tt,
     with_qi
       (<[i := if s_ltb cos s_zero
               then zip_with (fun o d => s_sub o (s_mul cos d))
                      old_qi embedding_diff
               else zip_with (fun o d => s_add o (s_mul cos d))
                      old_qi embedding_diff]> (qi st))
       (after_sgd global_mean lr reg st u i b_u b_i p_u q_i rating)).
Proof.
  intros Hshape err old_qi new_qi embedding_diff divisor cos Hlen Hnz Hviol.
  rewrite (run_epoch_row_fair _ _ _ _ _ _ _ _ _ _ _ _ _ _ _ Hshape);
    [| |done|done].
  - unfold fair_qi, vsub, vadd, vscale.
    fold err. fold new_qi. fold old_qi.
    fold (vsub new_qi old_qi). fold embedding_diff. fold divisor. fold cos.
    rewrite !zip_with_fmap_r.
    destruct Hviol as [[HW Hneg]|(HM & Hpos & Hnneg)].
    + by rewrite Hneg, (bool_decide_eq_true_2 _ HW).
    + by rewrite Hnneg, Hpos, (bool_decide_eq_true_2 _ HM).
  - destruct Hviol as [[HW _]|[HM _]].
    + by rewrite (bool_decide_eq_true_2 _ HW).
    + rewrite (bool_decide_eq_true_2 _ HM). apply orb_true_r.
Qed.

(** C6. A validation row predicts [global_mean], plus [bu[user]] only
    when [user >= 0], plus [bi[item]] only when [item >= 0], plus the
    factor terms only when both are; a row with user [-1] and a known item
    has the residual [rating - (global_mean + bi[item])], which over the
    reals is [rating - global_mean - bi[item]].  The store is not
    modified. *)
Theorem val_residual_omits_unknown_terms :
  (∀ (A : Type) (HA : Scalar A) global_mean n_factors (st : params A) rating,
     (∀ u i b_u b_i p_u q_i,
        in_shape st n_factors u i b_u b_i p_u q_i →
        val_residual global_mean n_factors
          (Row (Z.of_nat u) (Z.of_nat i) rating) st
        = (Ok (s_sub rating
                 (fold_left (fun acc pq => s_add acc (s_mul pq.1 pq.2))
                    (zip p_u q_i) (s_add (s_add global_mean b_u) b_i))), st))
     ∧ (∀ user i b_i,
          (user < 0)%Z → bi st !! i = Some b_i →
          val_residual global_mean n_factors (Row user (Z.of_nat i) rating) st
          = (Ok (s_sub rating (s_add global_mean b_i)), st))
     ∧ (∀ u item b_u,
          (item < 0)%Z → bu st !! u = Some b_u →
          val_residual global_mean n_factors (Row (Z.of_nat u) item rating) st
          = (Ok (s_sub rating (s_add global_mean b_u)), st))
     ∧ (∀ user item,
          (user < 0)%Z → (item < 0)%Z →
          val_residual global_mean n_factors (Row user item rating) st
          = (Ok (s_sub rating global_mean), st)))
  ∧ (∀ (global_mean : R) n_factors (st : params R) (rating : R) i b_i,
       bi st !! i = Some b_i →
       val_residual global_mean n_factors (Row (-1) (Z.of_nat i) rating) st
       = (Ok (rating - global_mean - b_i)%R, st)).
Proof.
  split.
  - intros A HA gm nf st rating. repeat split.
    + intros u i b_u b_i p_u q_i Hshape.
      exact (val_residual_known gm nf st u i b_u b_i p_u q_i rating Hshape).
    + intros user i b_i. apply val_residual_unknown_user.
    + intros u item b_u. apply val_residual_unknown_item.
    + intros user item. apply val_residual_unknown_both.
  - intros gm nf st rating i b_i Hbi.
    rewrite (val_residual_unknown_user gm nf st (-1) i b_i rating) by (lia || done).
    cbn [s_sub s_add R_scalar]. do 2 f_equal. lra.
Qed.

(** C7, as the code has it.  On an empty validation set
    [_compute_val_metrics] does not fail: it has no check of the number of
    rows, each mean is the empty sum divided by the size 0, and on binary64
    the loss, the rmse and the mae it returns are all not-a-number.  The
    store is untouched. *)
Theorem compute_val_metrics_empty_returns_nan :
  (∀ (A : Type) (HA : Scalar A) global_mean n_factors (st : params A),
     _compute_val_metrics global_mean n_factors [] st
     = (Ok (s_div s_zero (s_of_Z 0),
            s_sqrt (s_div s_zero (s_of_Z 0)),
            s_div s_zero (s_of_Z 0)), st))
  ∧ (∀ global_mean n_factors (st : params float),
       _compute_val_metrics global_mean n_factors [] st
       = (Ok (nan, nan, nan), st)).
Proof.
  split.
  - intros A HA gm nf st. apply compute_val_metrics_empty.
  - intros gm nf st. rewrite compute_val_metrics_empty.
    do 2 f_equal.
Qed.

(** C9, as the code has it.  [_initialization] succeeds exactly when each
    of its four arrays can be allocated: no dimension is negative (a zero
    dimension gives empty arrays) and each array, at 8 bytes an entry, is
    below [2^63] bytes and within the allocator's capacity.  It then
    returns [bu] and [bi] all zero of lengths [n_users] and [n_items], and
    [pu], [qi] of shapes [(n_users, n_factors)] and [(n_items, n_factors)].
    In every other case it raises: a negative dimension is such a case,
    and an [n_users] of [2^60] or more (within int64) raises
    [ValueError]. *)
Theorem initialization_fails_iff_not_allocatable {A : Type} `{Scalar A}
    (gauss : nat → A) (capacity n_users n_items n_factors : Z) (k : nat) :
  let fits :=
    allocatable capacity [n_users] ∧ allocatable capacity [n_items]
    ∧ allocatable capacity [n_users; n_factors]
    ∧ allocatable capacity [n_items; n_factors] in
  (fits →
   ∃ pu0 qi0 k',
     _initialization gauss capacity n_users n_items n_factors k
     = (Ok (Params (replicate (Z.to_nat n_users) s_zero)
                   (replicate (Z.to_nat n_items) s_zero) pu0 qi0), k')
     ∧ length pu0 = Z.to_nat n_users
     ∧ Forall (fun r => length r = Z.to_nat n_factors) pu0
     ∧ length qi0 = Z.to_nat n_items
     ∧ Forall (fun r => length r = Z.to_nat n_factors) qi0)
  ∧ (¬ fits →
     ∃ e, (_initialization gauss capacity n_users n_items n_factors k).1
          = Raise e)
  ∧ ((n_users < 0)%Z ∨ (n_items < 0)%Z ∨ (n_factors < 0)%Z → ¬ fits)
  ∧ ((2 ^ 60 ≤ n_users < 2 ^ 63)%Z →
     (_initialization gauss capacity n_users n_items n_factors k).1
     = Raise ValueError).
Proof.
  intros fits. split; [|split; [|split]].
  - intros (Hu & Hi & Hpu & Hqi). by apply initialization_ok.
  - apply initialization_fails.
  - apply negative_not_allocatable.
  - intros Hbig. unfold _initialization.
    rewrite (bind_raise _ _ k ValueError k); [done|].
    unfold lift, np_zeros_alloc, allocate. cbn [existsb fold_left orb].
    rewrite (proj2 (Z.ltb_ge n_users 0)) by lia.
    by rewrite (proj2 (Z.leb_le (2 ^ 63) (8 * (1 * n_users)))) by lia.
Qed.

(** ** The claims at concrete inputs *)

Lemma e2e_in_shape :
  in_shape e2e_params 1 0 1 0%float 0%float [0.1%float] [0.2%float].
Proof. by repeat split. Defined.

Lemma exact_fit_in_shape :
  in_shape exact_fit_params 1 0 0 0%float 0%float [0.5%float] [2%float].
Proof. by repeat split. Defined.

Lemma untagged_row_witness :
  run_epoch_row 3%float 1 0.1%float 0%float [1%float] ∅ ∅
    (Row (Z.of_nat 0) (Z.of_nat 1) 4%float) e2e_params
  = (Ok tt,
     Params [0.098; 0]%float [0; 0.098]%float
       [[0.11960000000000001]; [0.2]]%float
       [[0.1]; [0.20980000000000001]]%float).
Proof.
  rewrite (untagged_row_commits_sgd_update 3%float 1 0.1%float 0%float
             [1%float] ∅ ∅ e2e_params 0 1 0%float 0%float
             [0.1%float] [0.2%float] 4%float e2e_in_shape
             ltac:(set_solver) ltac:(set_solver)).
  vm_compute. reflexivity.
Defined.

Lemma damping_in_shape :
  in_shape damping_params 2 1 0 0%float 0%float [-3; 4]%float [0; 0]%float.
Proof. by repeat split. Defined.

Lemma tagged_row_witness :
  run_epoch_row 0%float 2 1%float 0%float [1; 0]%float {[0%Z]} ∅
    (Row (Z.of_nat 1) (Z.of_nat 0) 1%float) damping_params
  = (Ok tt,
     Params [0; 1]%float [1]%float [[-5; 0]; [-3; 4]]%float
       [[-1.7999999999999998; 2.4]]%float).
Proof.
  rewrite (tagged_row_commits_by_fairness_rule 0%float 2 1%float 0%float
             [1; 0]%float {[0%Z]} ∅ damping_params 1 0 0%float 0%float
             [-3; 4]%float [0; 0]%float 1%float damping_in_shape
             ltac:(left; set_solver) eq_refl
             ltac:(vm_compute; reflexivity)).
  vm_compute. reflexivity.
Defined.


Lemma zero_norm_divisor_witness :
  run_epoch_row 3%float 1 0.1%float 0%float [1%float] {[0%Z]} ∅
    (Row (Z.of_nat 0) (Z.of_nat 0) 4%float) exact_fit_params
  = (Raise ZeroDivisionError, exact_fit_params).
Proof.
  rewrite (proj1 (zero_norm_divisor_raises 3%float 1 0.1%float 0%float
                    [1%float] {[0%Z]} ∅ exact_fit_params 0 0 0%float 0%float
                    [0.5%float] [2%float] 4%float exact_fit_in_shape
                    ltac:(left; set_solver) eq_refl
                    ltac:(vm_compute; reflexivity))).
  vm_compute. reflexivity.
Defined.

Lemma row_sgd_update_witness :
  run_epoch_row 3%float 1 0.1%float 0%float [1%float] ∅ ∅
    (Row (Z.of_nat 0) (Z.of_nat 1) 4%float) e2e_params
  = commit_item [1%float] ∅ ∅ 1 [0.2%float] [0.20980000000000001%float]
      (Params [0.098; 0]%float [0; 0.098]%float
         [[0.11960000000000001]; [0.2]]%float [[0.1]; [0.2]]%float).
Proof.
  rewrite (proj1 row_sgd_update_and_scenario float _ 3%float 1%Z 0.1%float
             0%float [1%float] ∅ ∅ e2e_params 0%nat 1%nat 0%float 0%float
             [0.1%float] [0.2%float] 4%float e2e_in_shape).
  vm_compute. reflexivity.
Defined.

Lemma val_residual_witness :
  val_residual 3%float 1 (Row (-1) (Z.of_nat 1) 4%float) e2e_expected
  = (Ok (4 - (3 + 0.098))%float, e2e_expected).
Proof.
  exact (proj1 (proj2 (proj1 val_residual_omits_unknown_terms float _
                         3%float 1%Z e2e_expected 4%float))
           (-1)%Z 1%nat 0.098%float ltac:(lia) eq_refl).
Defined.

Lemma initialization_witness :
  (∃ pu0 qi0 k',
     _initialization (fun _ => 1%float) (2 ^ 30) 2 3 1 0
     = (Ok (Params [0; 0]%float [0; 0; 0]%float pu0 qi0), k')
     ∧ length pu0 = 2 ∧ Forall (fun r => length r = 1) pu0
     ∧ length qi0 = 3 ∧ Forall (fun r => length r = 1) qi0)
  ∧ (∃ e, (_initialization (fun _ => 1%float) (2 ^ 30) 2 (-1) 1 0).1 = Raise e)
  ∧ (_initialization (fun _ => 1%float) (2 ^ 30) (2 ^ 62) 3 1 0).1
    = Raise ValueError.
Proof.
  split; [|split].
  - exact (proj1 (initialization_fails_iff_not_allocatable
                    (fun _ => 1%float) (2 ^ 30) 2 3 1 0)
             ltac:(repeat split; repeat constructor; cbn; lia)).
  - exact (proj1 (proj2 (initialization_fails_iff_not_allocatable
                           (fun _ => 1%float) (2 ^ 30) 2 (-1) 1 0))
             (proj1 (proj2 (proj2 (initialization_fails_iff_not_allocatable
                                     (fun _ => 1%float) (2 ^ 30) 2 (-1) 1 0)))
                ltac:(lia))).
  - exact (proj2 (proj2 (proj2 (initialization_fails_iff_not_allocatable
                                  (fun _ => 1%float) (2 ^ 30) (2 ^ 62) 3 1 0)))
             ltac:(lia)).
Defined.

Lemma violating_commit_witness :
  run_epoch_row 0%float 2 1%float 0%float [-1; 0]%float ∅ {[0%Z]}
    (Row (Z.of_nat 1) (Z.of_nat 0) 1%float) damping_params
  = (Ok tt,
     Params [0; 1]%float [1]%float [[-5; 0]; [-3; 4]]%float
       [[-1.7999999999999998; 2.4]]%float).
Proof.
  rewrite (violating_commit_scales_update_by_cos (H:=float_scalar)
             0%float 2 1%float 0%float
             [-1; 0]%float ∅ {[0%Z]} damping_params 1 0 0%float 0%float
             [-3; 4]%float [0; 0]%float 1%float damping_in_shape eq_refl
             ltac:(vm_compute; reflexivity)
             ltac:(right; split; [set_solver|split; vm_compute; reflexivity])).
  vm_compute. reflexivity.
Defined.

(** C3, as stated, fails: two violating updates of the women-tagged item 0,
    both of length 5.  The one exactly opposite to [clusters_diff]
    ([cos = -1]) is committed whole, a movement of 5; the one with
    [cos = -0.6] moves the row by 3.  The larger [|cos|] gives the larger
    movement, and at [|cos| = 1] nothing is damped. *)
Lemma damping_grows_with_abs_cos :
  damping_embedding_diff 0 = Some [-5; 0]%float
  ∧ damping_embedding_diff 1 = Some [-3; 4]%float
  ∧ vnorm [-5; 0]%float = 5%float
  ∧ vnorm [-3; 4]%float = 5%float
  ∧ cosine_similarity [1; 0]%float [-5; 0]%float = Ok (-1)%float
  ∧ cosine_similarity [1; 0]%float [-3; 4]%float = Ok (-0.6)%float
  ∧ damping_run 0
    = (Ok tt, Params [1; 0]%float [1]%float [[-5; 0]; [-3; 4]]%float
                [[-5; 0]]%float)
  ∧ damping_movement 0 = Some 5%float
  ∧ damping_movement 1 = Some 3%float.
Proof. repeat split; vm_compute; reflexivity. Qed.

(** C9, as stated, fails: with every dimension 0, which is not positive,
    [_initialization] succeeds and returns four empty arrays. *)
Lemma initialization_zero_dimensions_succeed :
  _initialization (fun _ => 1%float) (2 ^ 30) 0 0 0 0
  = (Ok (Params [] [] [] []), 0).
Proof. vm_compute. reflexivity. Qed.

(** C7, as stated, fails: with no validation row the kernel returns, and
    what it returns for the loss, the rmse and the mae is not-a-number. *)
Lemma empty_validation_returns_nan :
  _compute_val_metrics 3%float 1 [] e2e_expected
  = (Ok (nan, nan, nan), e2e_expected).
Proof. vm_compute. reflexivity. Qed.

(** C4, as stated, fails: a women-tagged item whose rating is predicted
    exactly, with [reg = 0], has a zero [embedding_diff].  The cosine is
    not taken to be 0 and [new_qi] is not committed: the epoch stops with
    [ZeroDivisionError]. *)
Lemma exact_fit_epoch_raises :
  _run_epoch 3%float 1 0.1%float 0%float [1%float] {[0%Z]} ∅
    [exact_fit_row] exact_fit_params
  = (Raise ZeroDivisionError, exact_fit_params).
Proof. vm_compute. reflexivity. Qed.

(** C1, as stated, fails: on the scenario of section 8 with item 1
    women-tagged (and in no other set) and [clusters_diff = [0]], the
    candidate is [new_qi = [0.2098]] but the divisor of the cosine is 0.
    The row raises [ZeroDivisionError] and none of the three commits takes
    place: [qi[1]] is still [old_qi = [0.2]], while the biases and [pu[0]]
    have the row's updates. *)
Lemma zero_clusters_diff_epoch_raises :
  sgd_new_qi 0.1%float 0%float
    (4 - prediction 3%float 0%float 0%float [0.1%float] [0.2%float])%float
    [0.1%float] [0.2%float]
  = [0.20980000000000001%float]
  ∧ _run_epoch 3%float 1 0.1%float 0%float [0%float] {[1%Z]} ∅
      [e2e_row] e2e_params
    = (Raise ZeroDivisionError,
       Params [0.098; 0]%float [0; 0.098]%float
         [[0.11960000000000001]; [0.2]]%float [[0.1]; [0.2]]%float).
Proof. split; vm_compute; reflexivity. Qed.


(** ** Further properties of the epoch trainer *)

Section EpochInvariants.
Context {A : Type} `{Scalar A}.
Variables (global_mean : A) (n_factors : Z) (lr reg : A).
Variables (clusters_diff : list A) (is_women_dict is_men_dict : gset Z).
Implicit Types (st : params A).

Lemma bind_ext {S T U : Type} (c : M S T) (k k' : T → M S U) s :
  (∀ v s', k v s' = k' v s') → bind c k s = bind c k' s.
Proof. intros Hk. unfold bind. destruct (c s) as [[v|e] s']; [apply Hk|done]. Qed.

(** The commit either leaves the store alone (an exception) or replaces
    the row [qi[item]] by a row of the same length. *)
Lemma commit_item_outcome st i q_i old_qi new_qi :
  qi st !! i = Some q_i →
  length old_qi = length q_i → length new_qi = length q_i →
  ∃ r qi',
    commit_item clusters_diff is_women_dict is_men_dict (Z.of_nat i)
      old_qi new_qi st = (r, with_qi qi' st)
    ∧ (qi' = qi st ∨ ∃ v, length v = length q_i ∧ qi' = <[i := v]> (qi st)).
Proof.
  intros Hq Hlo Hln.
  assert (Hid : with_qi (qi st) st = st) by (by destruct st).
  destruct (bool_decide (Z.of_nat i ∈ is_women_dict)
            || bool_decide (Z.of_nat i ∈ is_men_dict)) eqn:Htag.
  - destruct (cosine_similarity clusters_diff (vsub new_qi old_qi))
      as [c|e] eqn:Hcos.
    + eexists _, _. split.
      * by apply (commit_item_tagged _ _ _ _ _ q_i _ _ c).
      * right. eexists. split; [|done]. rewrite fair_qi_length; lia.
    + exists (Raise e), (qi st). split; [|by left].
      rewrite Hid. by apply commit_item_raise.
  - apply orb_false_elim in Htag as [HW HM].
    apply bool_decide_eq_false_1 in HW, HM.
    eexists _, _. split.
    + by apply (commit_item_untagged _ _ _ _ _ q_i).
    + right. by exists new_qi.
Qed.

(** A row in range ends, with or without an exception, in the store of
    its SGD steps, where [qi] is as before or has a new row [qi[item]]. *)
Lemma run_epoch_row_outcome st u i b_u b_i p_u q_i rating :
  in_shape st n_factors u i b_u b_i p_u q_i →
  ∃ r qi',
    run_epoch_row global_mean n_factors lr reg clusters_diff
      is_women_dict is_men_dict (Row (Z.of_nat u) (Z.of_nat i) rating) st
    = (r, with_qi qi'
            (after_sgd global_mean lr reg st u i b_u b_i p_u q_i rating))
    ∧ (qi' = qi st ∨ ∃ v, length v = length q_i ∧ qi' = <[i := v]> (qi st)).
Proof.
  intros Hshape.
  rewrite (run_epoch_row_sgd _ _ _ _ _ _ _ _ _ _ _ _ _ _ _ Hshape).
  destruct Hshape as (_ & _ & _ & Hqi & Hlp & Hlq).
  destruct (commit_item_outcome
              (after_sgd global_mean lr reg st u i b_u b_i p_u q_i rating)
              i q_i q_i
              (sgd_new_qi lr reg
                 (s_sub rating (prediction global_mean b_u b_i p_u q_i)) p_u q_i))
    as (r & qi' & Hc & Hq'); [done|done| |].
  { apply sgd_new_qi_length. lia. }
  by exists r, qi'.
Qed.

Lemma in_range_in_shape n_users n_items st (x : row A) :
  well_shaped n_users n_items n_factors st →
  row_in_range n_users n_items x →
  ∃ u i b_u b_i p_u q_i,
    x = Row (Z.of_nat u) (Z.of_nat i) (row_rating x)
    ∧ u < n_users ∧ i < n_items
    ∧ in_shape st n_factors u i b_u b_i p_u q_i.
Proof.
  intros (Hbu & Hpu & Hbi & Hqi & Hrp & Hrq) [[Hu0 Hu] [Hi0 Hi]].
  destruct x as [user item rating]. cbn in *.
  destruct (lookup_lt_is_Some_2 (bu st) (Z.to_nat user)) as [b_u Hb_u]; [lia|].
  destruct (lookup_lt_is_Some_2 (bi st) (Z.to_nat item)) as [b_i Hb_i]; [lia|].
  destruct (lookup_lt_is_Some_2 (pu st) (Z.to_nat user)) as [p_u Hp_u]; [lia|].
  destruct (lookup_lt_is_Some_2 (qi st) (Z.to_nat item)) as [q_i Hq_i]; [lia|].
  exists (Z.to_nat user), (Z.to_nat item), b_u, b_i, p_u, q_i.
  rewrite !Z2Nat.id by lia. repeat split; try done; try lia.
  - by apply (Forall_lookup_1 _ _ _ _ Hrp Hp_u).
  - by apply (Forall_lookup_1 _ _ _ _ Hrq Hq_i).
Qed.

Lemma row_outcome_well_shaped n_users n_items st u i b_u b_i p_u q_i rating qi' :
  well_shaped n_users n_items n_factors st →
  in_shape st n_factors u i b_u b_i p_u q_i →
  (qi' = qi st ∨ ∃ v, length v = length q_i ∧ qi' = <[i := v]> (qi st)) →
  well_shaped n_users n_items n_factors
    (with_qi qi' (after_sgd global_mean lr reg st u i b_u b_i p_u q_i rating)).
Proof.
  intros (Hbu & Hpu & Hbi & Hqi & Hrp & Hrq) (_ & _ & _ & _ & Hlp & Hlq) Hq'.
  unfold well_shaped, with_qi, after_sgd. cbn.
  rewrite !length_insert. repeat split; try done.
  - destruct Hq' as [->|(v & Hv & ->)]; [done|]. by rewrite length_insert.
  - apply Forall_insert; [done|].
    unfold sgd_new_pu. rewrite length_zip_with. lia.
  - destruct Hq' as [->|(v & Hv & ->)]; [done|].
    apply Forall_insert; [done|]. lia.
Qed.

(** One row on a well-shaped store: the store it leaves is well-shaped. *)
Lemma run_epoch_row_well_shaped n_users n_items st (x : row A) :
  well_shaped n_users n_items n_factors st →
  row_in_range n_users n_items x →
  well_shaped n_users n_items n_factors
    (run_epoch_row global_mean n_factors lr reg clusters_diff
       is_women_dict is_men_dict x st).2.
Proof.
  intros Hws Hx.
  destruct (in_range_in_shape _ _ _ _ Hws Hx)
    as (u & i & b_u & b_i & p_u & q_i & -> & _ & _ & Hshape).
  destruct (run_epoch_row_outcome st u i b_u b_i p_u q_i (row_rating x) Hshape)
    as (r & qi' & -> & Hq').
  by apply row_outcome_well_shaped.
Qed.

Lemma run_epoch_rows_well_shaped n_users n_items (X : list (row A)) : ∀ st,
  well_shaped n_users n_items n_factors st →
  Forall (row_in_range n_users n_items) X →
  well_shaped n_users n_items n_factors
    (run_epoch_rows global_mean n_factors lr reg clusters_diff
       is_women_dict is_men_dict X st).2.
Proof.
  induction X as [|x X IH]; intros st Hws HX; [done|].
  apply Forall_cons in HX as [Hx HX].
  pose proof (run_epoch_row_well_shaped _ _ st x Hws Hx) as Hws1.
  cbn [run_epoch_rows].
  destruct (run_epoch_row global_mean n_factors lr reg clusters_diff
              is_women_dict is_men_dict x st) as [[[]|e] st1] eqn:Hrow.
  - rewrite (bind_ok _ _ _ _ _ Hrow). by apply IH.
  - by rewrite (bind_raise _ _ _ _ _ Hrow).
Qed.

Lemma run_epoch_store (X : list (row A)) st :
  (_run_epoch global_mean n_factors lr reg clusters_diff
     is_women_dict is_men_dict X st).2
  = (run_epoch_rows global_mean n_factors lr reg clusters_diff
       is_women_dict is_men_dict X st).2.
Proof.
  unfold _run_epoch, bind.
  by destruct (run_epoch_rows _ _ _ _ _ _ _ X st) as [[[]|e] st1].
Qed.

End EpochInvariants.

Section EpochProperties.
Context {A : Type} `{Scalar A}.
Variables (global_mean : A) (n_factors : Z) (lr reg : A).
Implicit Types (st : params A) (clusters_diff : list A).
Implicit Types (is_women_dict is_men_dict : gset Z).

Lemma commit_item_untagged_any clusters_diff clusters_diff'
    is_women_dict is_men_dict item old_qi new_qi st :
  item ∉ is_women_dict → item ∉ is_men_dict →
  commit_item clusters_diff is_women_dict is_men_dict item old_qi new_qi st
  = commit_item clusters_diff' is_women_dict is_men_dict item old_qi new_qi st.
Proof.
  intros HW HM. unfold commit_item.
  by rewrite (bool_decide_eq_false_2 _ HW), (bool_decide_eq_false_2 _ HM).
Qed.

Lemma run_epoch_row_untagged_any clusters_diff clusters_diff'
    is_women_dict is_men_dict (x : row A) st :
  row_item x ∉ is_women_dict → row_item x ∉ is_men_dict →
  run_epoch_row global_mean n_factors lr reg clusters_diff
    is_women_dict is_men_dict x st
  = run_epoch_row global_mean n_factors lr reg clusters_diff'
      is_women_dict is_men_dict x st.
Proof.
  intros HW HM. unfold run_epoch_row.
  repeat (apply bind_ext; intros).
  match goal with v : (list A * list A)%type |- _ => destruct v end.
  by apply commit_item_untagged_any.
Qed.

(** X1. A training row in range changes nothing but its own entries: the
    biases and factor rows of every other user and of every other item are
    what they were, whether the row is committed or stops on an
    exception. *)
Theorem row_touches_only_its_entries clusters_diff is_women_dict is_men_dict
    st u i b_u b_i p_u q_i rating :
  in_shape st n_factors u i b_u b_i p_u q_i →
  let st' :=
    (run_epoch_row global_mean n_factors lr reg clusters_diff
       is_women_dict is_men_dict (Row (Z.of_nat u) (Z.of_nat i) rating) st).2 in
  (∀ u', u' ≠ u → bu st' !! u' = bu st !! u' ∧ pu st' !! u' = pu st !! u')
  ∧ (∀ i', i' ≠ i → bi st' !! i' = bi st !! i' ∧ qi st' !! i' = qi st !! i').
Proof.
  intros Hshape st'. subst st'.
  destruct (run_epoch_row_outcome global_mean n_factors lr reg clusters_diff
              is_women_dict is_men_dict st u i b_u b_i p_u q_i rating Hshape)
    as (r & qi' & -> & Hq').
  cbn. split.
  - intros u' Hu'. by rewrite !list_lookup_insert_ne.
  - intros i' Hi'. rewrite list_lookup_insert_ne by done. split; [done|].
    destruct Hq' as [->|(v & _ & ->)]; [done|].
    by rewrite list_lookup_insert_ne.
Qed.

(** X2. The fairness inputs reach [qi] only: for one row on one store, any
    two choices of [clusters_diff] and of the two dictionaries leave the
    same [bu], [bi] and [pu], also when one of the runs stops on an
    exception. *)
Theorem fairness_inputs_affect_only_qi
    clusters_diff is_women_dict is_men_dict
    clusters_diff' is_women_dict' is_men_dict'
    st u i b_u b_i p_u q_i rating :
  in_shape st n_factors u i b_u b_i p_u q_i →
  let st1 :=
    (run_epoch_row global_mean n_factors lr reg clusters_diff
       is_women_dict is_men_dict (Row (Z.of_nat u) (Z.of_nat i) rating) st).2 in
  let st2 :=
    (run_epoch_row global_mean n_factors lr reg clusters_diff'
       is_women_dict' is_men_dict' (Row (Z.of_nat u) (Z.of_nat i) rating) st).2 in
  bu st1 = bu st2 ∧ bi st1 = bi st2 ∧ pu st1 = pu st2.
Proof.
  intros Hshape st1 st2. subst st1 st2.
  destruct (run_epoch_row_outcome global_mean n_factors lr reg clusters_diff
              is_women_dict is_men_dict st u i b_u b_i p_u q_i rating Hshape)
    as (r & qi1 & -> & _).
  destruct (run_epoch_row_outcome global_mean n_factors lr reg clusters_diff'
              is_women_dict' is_men_dict' st u i b_u b_i p_u q_i rating Hshape)
    as (r' & qi2 & -> & _).
  done.
Qed.

(** X3. The dimensions are an invariant of the epoch: on a store with
    [n_users] users, [n_items] items and factor rows of [n_factors]
    entries, whatever rows in range are processed and whether or not the
    epoch stops on an exception, the store left behind has the same
    dimensions. *)
Theorem epoch_keeps_dimensions clusters_diff is_women_dict is_men_dict
    n_users n_items (X : list (row A)) st :
  well_shaped n_users n_items n_factors st →
  Forall (row_in_range n_users n_items) X →
  well_shaped n_users n_items n_factors
    (_run_epoch global_mean n_factors lr reg clusters_diff
       is_women_dict is_men_dict X st).2.
Proof.
  intros Hws HX. rewrite run_epoch_store.
  by apply run_epoch_rows_well_shaped.
Qed.

Lemma run_epoch_rows_untagged_ok clusters_diff is_women_dict is_men_dict
    n_users n_items (X : list (row A)) : ∀ st,
  well_shaped n_users n_items n_factors st →
  Forall (row_in_range n_users n_items) X →
  untagged_rows is_women_dict is_men_dict X →
  ∃ st',
    run_epoch_rows global_mean n_factors lr reg clusters_diff
      is_women_dict is_men_dict X st = (Ok tt, st')
    ∧ well_shaped n_users n_items n_factors st'.
Proof.
  induction X as [|x X IH]; intros st Hws HX Hun; [by exists st|].
  apply Forall_cons in HX as [Hx HX]. apply Forall_cons in Hun as [[HW HM] Hun].
  pose proof (run_epoch_row_well_shaped global_mean n_factors lr reg
                clusters_diff is_women_dict is_men_dict _ _ st x Hws Hx) as Hws1.
  destruct (in_range_in_shape n_factors _ _ _ _ Hws Hx)
    as (u & i & b_u & b_i & p_u & q_i & Hxeq & _ & _ & Hshape).
  rewrite Hxeq in HW, HM, Hws1 |- *. cbn [row_item row_rating] in *.
  pose proof (run_epoch_row_untagged global_mean n_factors lr reg clusters_diff
                is_women_dict is_men_dict st u i b_u b_i p_u q_i
                (row_rating x) Hshape HW HM) as Hrow.
  rewrite Hrow in Hws1. cbn [snd] in Hws1.
  cbn [run_epoch_rows]. rewrite (bind_ok _ _ _ _ _ Hrow).
  by apply IH.
Qed.

(** X4. Without tagged items the epoch cannot fail: on a well-shaped store,
    with every row in range and no row's item in either dictionary,
    [_run_epoch] returns the updated arrays, whatever [clusters_diff] is,
    and they have the dimensions they had. *)
Theorem untagged_epoch_succeeds clusters_diff is_women_dict is_men_dict
    n_users n_items (X : list (row A)) st :
  well_shaped n_users n_items n_factors st →
  Forall (row_in_range n_users n_items) X →
  untagged_rows is_women_dict is_men_dict X →
  ∃ st',
    _run_epoch global_mean n_factors lr reg clusters_diff
      is_women_dict is_men_dict X st = (Ok st', st')
    ∧ well_shaped n_users n_items n_factors st'.
Proof.
  intros Hws HX Hun.
  destruct (run_epoch_rows_untagged_ok clusters_diff is_women_dict is_men_dict
              n_users n_items X st Hws HX Hun) as (st' & Hrows & Hws').
  exists st'. split; [|done].
  unfold _run_epoch. by rewrite (bind_ok _ _ _ _ _ Hrows).
Qed.

(** X6. When no row's item is in either dictionary, [clusters_diff] is
    never read: the epoch gives the same result and the same arrays for
    any two values of it, on every input, well-formed or not. *)
Theorem untagged_epoch_ignores_clusters_diff clusters_diff clusters_diff'
    is_women_dict is_men_dict (X : list (row A)) st :
  untagged_rows is_women_dict is_men_dict X →
  _run_epoch global_mean n_factors lr reg clusters_diff
    is_women_dict is_men_dict X st
  = _run_epoch global_mean n_factors lr reg clusters_diff'
      is_women_dict is_men_dict X st.
Proof.
  intros Hun. unfold _run_epoch.
  assert (Hrows : ∀ s,
    run_epoch_rows global_mean n_factors lr reg clusters_diff
      is_women_dict is_men_dict X s
    = run_epoch_rows global_mean n_factors lr reg clusters_diff'
        is_women_dict is_men_dict X s).
  { induction Hun as [|x X [HW HM] _ IH]; intros s; [done|].
    cbn [run_epoch_rows]. unfold bind.
    rewrite (run_epoch_row_untagged_any clusters_diff clusters_diff'
               is_women_dict is_men_dict x s HW HM).
    destruct (run_epoch_row _ _ _ _ clusters_diff' _ _ x s) as [[[]|e] s1];
      [apply IH|done]. }
  unfold bind. by rewrite Hrows.
Qed.

(** X16. A row in range whose item is tagged stops on [ZeroDivisionError]
    exactly when the divisor [‖clusters_diff‖ * ‖embedding_diff‖], as the
    kernel's arithmetic computes it, compares equal to zero; in every other
    case it runs to its commit.  ([clusters_diff] has [n_factors]
    entries.) *)
Theorem tagged_row_raises_iff_zero_divisor clusters_diff is_women_dict
    is_men_dict st u i b_u b_i p_u q_i rating :
  in_shape st n_factors u i b_u b_i p_u q_i →
  Z.of_nat i ∈ is_women_dict ∨ Z.of_nat i ∈ is_men_dict →
  length clusters_diff = length q_i →
  let err := s_sub rating (prediction global_mean b_u b_i p_u q_i) in
  let new_qi := sgd_new_qi lr reg err p_u q_i in
  let divisor := s_mul (vnorm clusters_diff) (vnorm (vsub new_qi q_i)) in
  let outcome :=
    (run_epoch_row global_mean n_factors lr reg clusters_diff
       is_women_dict is_men_dict (Row (Z.of_nat u) (Z.of_nat i) rating) st).1 in
  (outcome = Raise ZeroDivisionError ↔ s_eqb divisor s_zero = true)
  ∧ (outcome = Ok tt ↔ s_eqb divisor s_zero = false).
Proof.
  intros Hshape Htag Hcd err new_qi divisor outcome.
  assert (Htagb : bool_decide (Z.of_nat i ∈ is_women_dict)
                  || bool_decide (Z.of_nat i ∈ is_men_dict) = true).
  { destruct Htag as [HW|HM].
    - by rewrite (bool_decide_eq_true_2 _ HW).
    - rewrite (bool_decide_eq_true_2 _ HM). apply orb_true_r. }
  assert (Hed : length clusters_diff = length (vsub new_qi q_i)).
  { destruct Hshape as (_ & _ & _ & _ & Hlp & Hlq).
    unfold vsub, new_qi. rewrite length_zip_with, sgd_new_qi_length; lia. }
  destruct (s_eqb divisor s_zero) eqn:Hz.
  - assert (Hout : outcome = Raise ZeroDivisionError).
    { unfold outcome.
      by rewrite (run_epoch_row_raise global_mean n_factors lr reg clusters_diff
                    is_women_dict is_men_dict st u i b_u b_i p_u q_i rating
                    ZeroDivisionError Hshape Htagb
                    (cosine_similarity_zero_divisor clusters_diff _ Hed Hz)). }
    rewrite Hout. by repeat split.
  - assert (Hout : outcome = Ok tt).
    { unfold outcome.
      by rewrite (run_epoch_row_fair global_mean n_factors lr reg clusters_diff
                    is_women_dict is_men_dict st u i b_u b_i p_u q_i rating
                    Hshape Htagb Hcd Hz). }
    rewrite Hout. by repeat split.
Qed.

End EpochProperties.

(** ** Further properties of the validator *)

Section ValidatorProperties.
Context {A : Type} `{Scalar A}.
Variables (global_mean : A) (n_factors : Z).
Implicit Types (st : params A).

Lemma bind_keeps_store {S T U : Type} (c : M S T) (k : T → M S U) :
  (∀ s, (c s).2 = s) → (∀ v s, (k v s).2 = s) → ∀ s, (bind c k s).2 = s.
Proof.
  intros Hc Hk s. unfold bind. specialize (Hc s).
  destruct (c s) as [[v|e] s']; cbn in *; subst s'; [apply Hk|done].
Qed.

Lemma for_each_keeps_store {S Acc : Type} (body : nat → Acc → M S Acc) l :
  (∀ i acc s, (body i acc s).2 = s) → ∀ acc s, (for_each l body acc s).2 = s.
Proof.
  intros Hbody. induction l as [|i l IH]; intros acc s; [done|].
  cbn [for_each]. apply bind_keeps_store; [apply Hbody|apply IH].
Qed.

Lemma predict_factors_keeps_store user item pred st :
  (predict_factors n_factors user item pred st).2 = st.
Proof.
  unfold predict_factors. apply for_each_keeps_store.
  intros i acc s. unfold predict_body.
  apply bind_keeps_store; [done|]. intros p s1.
  by apply bind_keeps_store.
Qed.

Lemma val_residual_keeps_store (x : row A) st :
  (val_residual global_mean n_factors x st).2 = st.
Proof.
  unfold val_residual.
  repeat (apply bind_keeps_store; [|intros ? ?]); try done.
  - destruct (-1 <? row_user x)%Z; [|done]. by apply bind_keeps_store.
  - destruct (-1 <? row_item x)%Z; [|done]. by apply bind_keeps_store.
  - destruct ((-1 <? row_user x) && (-1 <? row_item x))%Z; [|done].
    apply predict_factors_keeps_store.
Qed.

Lemma val_residuals_keep_store (X_val : list (row A)) : ∀ residuals st,
  (val_residuals global_mean n_factors X_val residuals st).2 = st.
Proof.
  induction X_val as [|x X IH]; intros residuals st; [done|].
  cbn [val_residuals]. apply bind_keeps_store.
  - apply val_residual_keeps_store.
  - intros r s. apply IH.
Qed.

(** X7. [_compute_val_metrics] never modifies the parameters: whatever the
    validation set and the store, and whether it returns the metrics or
    stops on an exception, the four arrays are what they were. *)
Theorem validation_never_modifies_store (X_val : list (row A)) st :
  (_compute_val_metrics global_mean n_factors X_val st).2 = st.
Proof.
  unfold _compute_val_metrics.
  apply bind_keeps_store; [apply val_residuals_keep_store|].
  by intros residuals s.
Qed.

End ValidatorProperties.

Lemma val_residuals_ok {A : Type} `{Scalar A} (global_mean : A) (n_factors : Z)
    (st : params A) (X_val : list (row A)) (rs : list A) :
  Forall2 (fun x r => val_residual global_mean n_factors x st = (Ok r, st))
    X_val rs →
  ∀ residuals,
    val_residuals global_mean n_factors X_val residuals st
    = (Ok (residuals ++ rs), st).
Proof.
  induction 1 as [|x r X rs Hr _ IH]; intros residuals.
  - by rewrite app_nil_r.
  - cbn [val_residuals]. rewrite (bind_ok _ _ _ _ _ Hr), IH.
    by rewrite <- app_assoc.
Qed.

Section RealValidator.
Implicit Types (rs : list R) (st : params R).
Local Open Scope R_scope.

Lemma vsum_abs_cons (x : R) rs :
  vsum (Rabs <$> (x :: rs)) = Rabs x + vsum (Rabs <$> rs).
Proof. cbn [fmap list_fmap]. apply vsum_cons. Qed.

Lemma vsum_squares_cons (x : R) rs :
  vsum (vsquare (x :: rs)) = x * x + vsum (vsquare rs).
Proof. unfold vsquare. cbn [fmap list_fmap]. apply vsum_cons. Qed.

Lemma vmean_real (l : list R) : vmean l = vsum l / INR (length l).
Proof.
  unfold vmean. cbn [s_of_Z s_div R_scalar]. by rewrite <- INR_IZR_INZ.
Qed.

(** The metrics of an array of residuals. *)
Lemma metrics_of_residuals global_mean n_factors st
    (X_val : list (row R)) rs :
  Forall2 (fun x r => val_residual global_mean n_factors x st = (Ok r, st))
    X_val rs →
  _compute_val_metrics global_mean n_factors X_val st
  = (Ok (vsum (vsquare rs) / INR (length rs),
         R_sqrt.sqrt (vsum (vsquare rs) / INR (length rs)),
         vsum (Rabs <$> rs) / INR (length rs)), st).
Proof.
  intros Hrs. unfold _compute_val_metrics.
  rewrite (bind_ok _ _ _ _ _ (val_residuals_ok _ _ _ _ _ Hrs [])).
  cbn [app]. unfold ret. cbn [s_abs s_sqrt R_scalar].
  rewrite !vmean_real. unfold vsquare. by rewrite !length_fmap.
Qed.

End RealValidator.

(** X9. Over the reals, when every row of a non-empty validation set has
    residual 0 (its rating is predicted exactly), the three metrics are
    [loss = rmse = mae = 0]. *)
Theorem validation_zero_error (global_mean : R) (n_factors : Z)
    (st : params R) (X_val : list (row R)) :
  X_val ≠ [] →
  Forall (fun x => val_residual global_mean n_factors x st = (Ok 0%R, st))
    X_val →
  _compute_val_metrics global_mean n_factors X_val st
  = (Ok (0%R, 0%R, 0%R), st).
Proof.
  intros Hne Hzero.
  assert (Hall : Forall2
            (fun x r => val_residual global_mean n_factors x st = (Ok r, st))
            X_val (replicate (length X_val) 0%R)).
  { clear Hne. induction Hzero as [|x X Hx _ IH]; [constructor|].
    cbn. constructor; [done|]. apply IH. }
  rewrite (metrics_of_residuals _ _ _ _ _ Hall).
  assert (Hs2 : vsum (vsquare (replicate (length X_val) 0%R)) = 0%R).
  { clear. induction (length X_val) as [|n IH]; [done|].
    cbn [replicate]. rewrite vsum_squares_cons, IH. lra. }
  assert (Hs1 : vsum (Rabs <$> replicate (length X_val) 0%R) = 0%R).
  { clear. induction (length X_val) as [|n IH]; [done|].
    cbn [replicate]. rewrite vsum_abs_cons, IH, Rabs_R0. lra. }
  rewrite Hs1, Hs2.
  replace (0 / INR (length (replicate (length X_val) 0%R)))%R with 0%R
    by (unfold Rdiv; lra).
  by rewrite sqrt_0.
Qed.

(** ** Further properties of the initialiser *)

Section InitializerProperties.
Context {A : Type} `{Scalar A}.
Variable gauss : nat → A.
Variable capacity : Z.

(** What [_initialization] returns, when it returns. *)
Lemma initialization_returns (n_users n_items n_factors : Z) (k k' : nat) st0 :
  _initialization gauss capacity n_users n_items n_factors k = (Ok st0, k') →
  well_shaped (Z.to_nat n_users) (Z.to_nat n_items) n_factors st0.
Proof.
  intros Hinit.
  assert (Hdec :
    (allocatable capacity [n_users] ∧ allocatable capacity [n_items]
     ∧ allocatable capacity [n_users; n_factors]
     ∧ allocatable capacity [n_items; n_factors])
    ∨ ¬ (allocatable capacity [n_users] ∧ allocatable capacity [n_items]
         ∧ allocatable capacity [n_users; n_factors]
         ∧ allocatable capacity [n_items; n_factors])).
  { destruct (allocatable_dec capacity [n_users]);
      destruct (allocatable_dec capacity [n_items]);
      destruct (allocatable_dec capacity [n_users; n_factors]);
      destruct (allocatable_dec capacity [n_items; n_factors]);
      first [by left | right; by intros (? & ? & ? & ?)]. }
  destruct Hdec as [Hfits|Hno].
  - destruct Hfits as (Hu & Hi & Hpu & Hqi).
    destruct (initialization_ok gauss capacity n_users n_items n_factors k
                Hu Hi Hpu Hqi)
      as (pu0 & qi0 & k0 & Hok & Hpl & Hpr & Hql & Hqr).
    rewrite Hok in Hinit. injection Hinit as <- _.
    assert (Hf : (0 ≤ n_factors)%Z)
      by (apply (allocatable_dimension capacity [n_users; n_factors]);
          [done|repeat constructor]).
    unfold well_shaped. cbn. rewrite !length_replicate.
    repeat split; try done.
    + eapply Forall_impl; [exact Hpr|]. cbn. intros r Hr. lia.
    + eapply Forall_impl; [exact Hqr|]. cbn. intros r Hr. lia.
  - destruct (initialization_fails gauss capacity n_users n_items n_factors k
                Hno) as [e He].
    by rewrite Hinit in He.
Qed.

(** X11. The arrays [_initialization] returns can be trained on: whenever
    it returns, its arrays are well-shaped for the dimensions asked, so an
    epoch over rows in range none of whose items is tagged returns updated
    arrays of the same dimensions. *)
Theorem initialized_store_trains (n_users n_items n_factors : Z)
    (k k' : nat) st0 :
  _initialization gauss capacity n_users n_items n_factors k = (Ok st0, k') →
  well_shaped (Z.to_nat n_users) (Z.to_nat n_items) n_factors st0
  ∧ ∀ global_mean lr reg clusters_diff is_women_dict is_men_dict
      (X : list (row A)),
      Forall (row_in_range (Z.to_nat n_users) (Z.to_nat n_items)) X →
      untagged_rows is_women_dict is_men_dict X →
      ∃ st',
        _run_epoch global_mean n_factors lr reg clusters_diff
          is_women_dict is_men_dict X st0 = (Ok st', st')
        ∧ well_shaped (Z.to_nat n_users) (Z.to_nat n_items) n_factors st'.
Proof.
  intros Hinit.
  pose proof (initialization_returns _ _ _ _ _ _ Hinit) as Hws.
  split; [done|].
  intros gm lr reg cd W Mn X HX Hun.
  destruct (run_epoch_rows_untagged_ok gm n_factors lr reg cd W Mn _ _ X _
              Hws HX Hun) as (st' & Hrows & Hws').
  exists st'. split; [|done].
  unfold _run_epoch. by rewrite (bind_ok _ _ _ _ _ Hrows).
Qed.

End InitializerProperties.

(** ** The shuffler *)

Section ShufflerProperties.
Context {T : Type}.
Variable randint : nat → nat → nat.
Implicit Types (X : list T).

Lemma insert_head_permutation X j (x y : T) :
  X !! j = Some y → y :: <[j := x]> X ≡ₚ x :: X.
Proof.
  revert j. induction X as [|z X IH]; intros [|j] Hj; try done.
  - cbn in Hj. injection Hj as ->. cbn. apply perm_swap.
  - cbn in *. rewrite (perm_swap z y), (IH j Hj). apply perm_swap.
Qed.

(** Exchanging two rows permutes the array. *)
Lemma swap_permutation X : ∀ i j (x y : T),
  X !! i = Some x → X !! j = Some y →
  <[j := x]> (<[i := y]> X) ≡ₚ X.
Proof.
  induction X as [|z X IH]; intros [|i] [|j] x y Hi Hj; try done; cbn in *.
  - by injection Hi as ->; injection Hj as ->.
  - injection Hi as ->. by apply insert_head_permutation.
  - injection Hj as ->. by apply insert_head_permutation.
  - f_equiv. by apply IH.
Qed.

Lemma swap_rows_ok X i j x y :
  X !! i = Some x → X !! j = Some y →
  swap_rows X i j = Ok (<[j := x]> (<[i := y]> X)).
Proof.
  intros Hi Hj. unfold swap_rows.
  rewrite (getitem_nat _ _ _ Hj), (getitem_nat _ _ _ Hi). cbn [rbind].
  rewrite setitem_nat by (by eapply lookup_lt_Some). cbn [rbind].
  apply setitem_nat. rewrite length_insert. by eapply lookup_lt_Some.
Qed.

Lemma shuffle_from_ok (i : nat) : ∀ X k,
  (∀ k n, 0 < n → randint k n < n) →
  i < length X →
  ∃ X', shuffle_from randint i X k = (Ok X', k + i) ∧ X' ≡ₚ X.
Proof.
  induction i as [|i IH]; intros X k Hrand Hi.
  - exists X. cbn. unfold ret. by rewrite Nat.add_0_r.
  - pose proof (Hrand k (S (S i)) ltac:(lia)) as Hj.
    destruct (lookup_lt_is_Some_2 X (S i)) as [x Hx]; [lia|].
    destruct (lookup_lt_is_Some_2 X (randint k (S (S i)))) as [y Hy]; [lia|].
    cbn [shuffle_from]. rewrite (swap_rows_ok _ _ _ _ _ Hx Hy).
    destruct (IH (<[randint k (S (S i)) := x]> (<[S i := y]> X)) (S k) Hrand)
      as (X' & HX' & Hperm); [rewrite !length_insert; lia|].
    exists X'. split.
    + rewrite HX'. f_equal. lia.
    + by rewrite Hperm, swap_permutation.
Qed.

(** X12. With a generator that answers within the range asked,
    [_shuffle] returns a permutation of its argument: the same rows, each
    as often as before, none altered; an array of [n >= 1] rows costs
    [n - 1] draws. *)
Theorem shuffle_is_permutation X k :
  (∀ k n, 0 < n → randint k n < n) →
  ∃ X', _shuffle randint X k = (Ok X', k + (length X - 1))
    ∧ X' ≡ₚ X ∧ length X' = length X.
Proof.
  intros Hrand. unfold _shuffle, np_random_shuffle.
  destruct X as [|x X].
  - exists []. cbn. unfold bind, ret. cbn. by rewrite Nat.add_0_r.
  - destruct (shuffle_from_ok (length (x :: X) - 1) (x :: X) k Hrand)
      as (X' & HX' & Hperm); [cbn; lia|].
    exists X'. rewrite (bind_ok _ _ _ _ _ HX').
    split; [done|]. split; [done|]. by rewrite Hperm.
Qed.

End ShufflerProperties.

(** ** The further properties at concrete inputs *)

Lemma e2e_well_shaped : well_shaped 2 2 1 e2e_params.
Proof. unfold well_shaped. cbn. repeat split; repeat constructor. Defined.

Lemma e2e_row_in_range : Forall (row_in_range 2 2) [e2e_row].
Proof. repeat constructor; cbn; lia. Defined.

Lemma e2e_untagged : untagged_rows ∅ ∅ [e2e_row].
Proof. repeat constructor; set_solver. Defined.

Lemma row_touches_only_its_entries_witness :
  bu (run_epoch_row 3%float 1 0.1%float 0%float [(-1)%float] {[1%Z]} ∅
        (Row (Z.of_nat 0) (Z.of_nat 1) 4%float) e2e_params).2 !! 1
  = bu e2e_params !! 1.
Proof.
  exact (proj1 (proj1 (row_touches_only_its_entries 3%float 1 0.1%float
                         0%float [(-1)%float] {[1%Z]} ∅ e2e_params 0 1
                         0%float 0%float [0.1%float] [0.2%float] 4%float
                         e2e_in_shape) 1 ltac:(lia))).
Defined.

Lemma fairness_inputs_affect_only_qi_witness :
  pu (run_epoch_row 3%float 1 0.1%float 0%float [1%float] ∅ ∅
        (Row (Z.of_nat 0) (Z.of_nat 1) 4%float) e2e_params).2
  = pu (run_epoch_row 3%float 1 0.1%float 0%float [0%float] {[1%Z]} ∅
          (Row (Z.of_nat 0) (Z.of_nat 1) 4%float) e2e_params).2.
Proof.
  exact (proj2 (proj2 (fairness_inputs_affect_only_qi 3%float 1 0.1%float
                         0%float [1%float] ∅ ∅ [0%float] {[1%Z]} ∅
                         e2e_params 0 1 0%float 0%float
                         [0.1%float] [0.2%float] 4%float e2e_in_shape))).
Defined.

Lemma epoch_keeps_dimensions_witness :
  well_shaped 2 2 1
    (_run_epoch 3%float 1 0.1%float 0%float [0%float] {[1%Z]} ∅
       [e2e_row] e2e_params).2.
Proof.
  exact (epoch_keeps_dimensions 3%float 1 0.1%float 0%float [0%float]
           {[1%Z]} ∅ 2 2 [e2e_row] e2e_params e2e_well_shaped
           e2e_row_in_range).
Defined.

Lemma untagged_epoch_succeeds_witness :
  ∃ st', _run_epoch 3%float 1 0.1%float 0%float [1%float] ∅ ∅
           [e2e_row] e2e_params = (Ok st', st')
         ∧ well_shaped 2 2 1 st'.
Proof.
  exact (untagged_epoch_succeeds 3%float 1 0.1%float 0%float [1%float] ∅ ∅
           2 2 [e2e_row] e2e_params e2e_well_shaped e2e_row_in_range
           e2e_untagged).
Defined.

Lemma untagged_epoch_ignores_clusters_diff_witness :
  _run_epoch 3%float 1 0.1%float 0%float [1%float] ∅ ∅ [e2e_row] e2e_params
  = _run_epoch 3%float 1 0.1%float 0%float [] ∅ ∅ [e2e_row] e2e_params.
Proof.
  exact (untagged_epoch_ignores_clusters_diff 3%float 1 0.1%float 0%float
           [1%float] [] ∅ ∅ [e2e_row] e2e_params e2e_untagged).
Defined.

Lemma validation_zero_error_witness :
  _compute_val_metrics 3%R 1 [Row (-1) (-1) 3%R] e2e_params_R
  = (Ok (0%R, 0%R, 0%R), e2e_params_R).
Proof.
  apply (validation_zero_error 3%R 1 e2e_params_R [Row (-1) (-1) 3%R]);
    [done|].
  constructor; [|constructor].
  rewrite val_residual_unknown_both by lia.
  do 2 f_equal. cbn. lra.
Defined.

Lemma underflow_in_shape :
  in_shape underflow_params 1 0 0 0%float 0%float [1e-200%float] [0%float].
Proof. by repeat split. Defined.

Lemma tagged_row_raises_iff_zero_divisor_witness :
  vsub (sgd_new_qi 1%float 0%float
          (1 - prediction 0%float 0%float 0%float [1e-200%float] [0%float])%float
          [1e-200%float] [0%float]) [0%float]
  = [1e-200%float]
  ∧ (run_epoch_row 0%float 1 1%float 0%float [1%float] {[0%Z]} ∅
       (Row (Z.of_nat 0) (Z.of_nat 0) 1%float) underflow_params).1
    = Raise ZeroDivisionError.
Proof.
  split; [vm_compute; reflexivity|].
  exact (proj2 (proj1 (tagged_row_raises_iff_zero_divisor (H:=float_scalar)
                         0%float 1 1%float 0%float [1%float] {[0%Z]} ∅
                         underflow_params 0 0 0%float 0%float
                         [1e-200%float] [0%float] 1%float underflow_in_shape
                         ltac:(left; set_solver) eq_refl))
           ltac:(vm_compute; reflexivity)).
Defined.

Lemma initialized_store_trains_witness :
  ∃ st',
    _run_epoch 3%float 1 0.1%float 0%float [1%float] ∅ ∅ [e2e_row]
      (Params [0; 0]%float [0; 0]%float [[0]; [0.1]]%float
         [[0.2]; [0.30000000000000004]]%float)
    = (Ok st', st')
    ∧ well_shaped (Z.to_nat 2) (Z.to_nat 2) 1 st'.
Proof.
  apply (proj2 (initialized_store_trains (H:=float_scalar)
                  (fun k => float_of_Z (Z.of_nat k))
                  (2 ^ 30) 2 2 1 0 4
                  (Params [0; 0]%float [0; 0]%float [[0]; [0.1]]%float
                     [[0.2]; [0.30000000000000004]]%float)
                  ltac:(vm_compute; reflexivity))).
  - exact e2e_row_in_range.
  - exact e2e_untagged.
Defined.

Lemma shuffle_is_permutation_witness :
  ∃ X', _shuffle (fun _ _ => 0) [1; 2; 3] 0 = (Ok X', 0 + (3 - 1))
        ∧ X' ≡ₚ [1; 2; 3] ∧ length X' = 3.
Proof.
  exact (shuffle_is_permutation (fun _ _ => 0) [1; 2; 3] 0
           (fun _ n Hn => Hn)).
Defined.

(** ** Negative indices in the trainer *)

Section Wraparound.
Context {A : Type} `{Scalar A}.
Variables (global_mean : A) (n_factors : Z) (lr reg : A).
Variables (clusters_diff : list A) (is_women_dict is_men_dict : gset Z).
Variable n_users : nat.
Implicit Types (st : params A).

(** The users' arrays have [n_users] entries. *)
Let users st : Prop := length (bu st) = n_users ∧ length (pu st) = n_users.

Lemma norm_index_wrap (z : Z) :
  (- Z.of_nat n_users ≤ z < 0)%Z →
  norm_index n_users z = norm_index n_users (Z.of_nat n_users + z).
Proof.
  intros Hz. unfold norm_index.
  rewrite (proj2 (Z.leb_gt 0 z)) by lia. cbn [andb].
  rewrite (proj2 (Z.leb_le (- Z.of_nat n_users) z)) by lia.
  rewrite (proj2 (Z.ltb_lt z 0)) by lia. cbn [andb].
  rewrite (proj2 (Z.leb_le 0 (Z.of_nat n_users + z))) by lia.
  by rewrite (proj2 (Z.ltb_lt (Z.of_nat n_users + z) (Z.of_nat n_users))) by lia.
Qed.

Lemma getitem_wrap {T} (a : list T) (z : Z) :
  length a = n_users → (- Z.of_nat n_users ≤ z < 0)%Z →
  getitem a z = getitem a (Z.of_nat n_users + z).
Proof. intros Ha Hz. unfold getitem. by rewrite Ha, norm_index_wrap. Qed.

Lemma setitem_wrap {T} (a : list T) (z : Z) (v : T) :
  length a = n_users → (- Z.of_nat n_users ≤ z < 0)%Z →
  setitem a z v = setitem a (Z.of_nat n_users + z) v.
Proof. intros Ha Hz. unfold setitem. by rewrite Ha, norm_index_wrap. Qed.

Lemma setitem_length {T} (a a' : list T) (z : Z) (v : T) :
  setitem a z v = Ok a' → length a' = length a.
Proof.
  unfold setitem. destruct (norm_index (length a) z); [|done].
  intros [= <-]. apply length_insert.
Qed.

Lemma agree_bind {S T U : Type} (P : S → Prop) (c c' : M S T)
    (k k' : T → M S U) :
  agree_on P c c' → (∀ v, agree_on P (k v) (k' v)) →
  agree_on P (bind c k) (bind c' k').
Proof.
  intros Hc Hk s Hs. destruct (Hc s Hs) as [Heq HP]. unfold bind.
  rewrite <- Heq. destruct (c s) as [[v|e] s1]; cbn in *; [by apply Hk|done].
Qed.

Lemma agree_same {S T : Type} (P : S → Prop) (c : M S T) :
  (∀ s, P s → P (c s).2) → agree_on P c c.
Proof. intros Hc s Hs. split; [done|by apply Hc]. Qed.

Lemma agree_for_each {S Acc : Type} (P : S → Prop)
    (body body' : nat → Acc → M S Acc) l :
  (∀ i acc, agree_on P (body i acc) (body' i acc)) →
  ∀ acc, agree_on P (for_each l body acc) (for_each l body' acc).
Proof.
  intros Hbody. induction l as [|i l IH]; intros acc.
  - by apply agree_same.
  - cbn [for_each]. apply agree_bind; [apply Hbody|apply IH].
Qed.

Lemma agree_read_bu (z : Z) :
  (- Z.of_nat n_users ≤ z < 0)%Z →
  agree_on users (read_bu z) (read_bu (Z.of_nat n_users + z)).
Proof.
  intros Hz st [Hbu Hpu]. unfold read_bu, load. cbn.
  by rewrite (getitem_wrap _ _ Hbu Hz).
Qed.

Lemma agree_read_pu (z : Z) f :
  (- Z.of_nat n_users ≤ z < 0)%Z →
  agree_on users (read_pu z f) (read_pu (Z.of_nat n_users + z) f).
Proof.
  intros Hz st [Hbu Hpu]. unfold read_pu, load, getitem2. cbn.
  by rewrite (getitem_wrap _ _ Hpu Hz).
Qed.

Lemma agree_write_bu (z : Z) v :
  (- Z.of_nat n_users ≤ z < 0)%Z →
  agree_on users (write_bu z v) (write_bu (Z.of_nat n_users + z) v).
Proof.
  intros Hz st [Hbu Hpu]. unfold write_bu, store.
  rewrite <- (setitem_wrap _ _ _ Hbu Hz).
  destruct (setitem (bu st) z v) as [a|e] eqn:Hset; cbn; [|done].
  split; [done|]. unfold users. cbn. split; [|done].
  by rewrite (setitem_length _ _ _ _ Hset).
Qed.

Lemma agree_write_pu (z : Z) f v :
  (- Z.of_nat n_users ≤ z < 0)%Z →
  agree_on users (write_pu z f v) (write_pu (Z.of_nat n_users + z) f v).
Proof.
  intros Hz st [Hbu Hpu]. unfold write_pu, store, setitem2.
  rewrite <- (getitem_wrap _ _ Hpu Hz).
  destruct (getitem (pu st) z) as [r|e]; cbn [rbind]; [|done].
  destruct (setitem r (Z.of_nat f) v) as [r'|e]; cbn [rbind]; [|done].
  rewrite <- (setitem_wrap _ _ _ Hpu Hz).
  destruct (setitem (pu st) z r') as [a|e] eqn:Hset; cbn; [|done].
  split; [done|]. unfold users. cbn. split; [done|].
  by rewrite (setitem_length _ _ _ _ Hset).
Qed.

Lemma users_kept_by_load {T} (f : params A → result T) st :
  users st → users (load f st).2.
Proof. done. Qed.

Lemma users_kept_by_write_bi (z : Z) v st :
  users st → users (write_bi z v st).2.
Proof.
  intros Hst. unfold write_bi, store.
  by destruct (setitem (bi st) z v).
Qed.

Lemma users_kept_by_write_qi_row (z : Z) vec st :
  users st → users (write_qi_row z vec st).2.
Proof.
  intros Hst. unfold write_qi_row, store.
  by destruct (setrow (qi st) z vec).
Qed.

Lemma users_kept_by_commit (item : Z) old_qi new_qi st :
  users st →
  users (commit_item clusters_diff is_women_dict is_men_dict item
           old_qi new_qi st).2.
Proof.
  intros Hst. unfold commit_item, bind.
  destruct (bool_decide (item ∈ is_women_dict)
            || bool_decide (item ∈ is_men_dict)); cbn.
  - unfold lift. destruct (cosine_similarity _ _) as [c|e]; [|done].
    repeat case_match; by apply users_kept_by_write_qi_row.
  - repeat case_match; by apply users_kept_by_write_qi_row.
Qed.

(** X17. The trainer does not treat a negative user index as unknown: a
    row whose user is [-k], for [1 <= k <= n_users], reads and updates the
    bias and the factors of the user [n_users - k], as Python indexing
    does (a row with user [-1] trains the last user). *)
Theorem negative_user_wraps_in_training (user item : Z) (rating : A) st :
  length (bu st) = n_users → length (pu st) = n_users →
  (- Z.of_nat n_users ≤ user < 0)%Z →
  run_epoch_row global_mean n_factors lr reg clusters_diff
    is_women_dict is_men_dict (Row user item rating) st
  = run_epoch_row global_mean n_factors lr reg clusters_diff
      is_women_dict is_men_dict (Row (Z.of_nat n_users + user) item rating) st.
Proof.
  intros Hbu Hpu Hz.
  assert (Hagree : agree_on users
            (run_epoch_row global_mean n_factors lr reg clusters_diff
               is_women_dict is_men_dict (Row user item rating))
            (run_epoch_row global_mean n_factors lr reg clusters_diff
               is_women_dict is_men_dict
               (Row (Z.of_nat n_users + user) item rating))).
  { unfold run_epoch_row. cbn [row_user row_item row_rating].
    apply agree_bind; [by apply agree_read_bu|intros b_u].
    apply agree_bind; [by apply agree_same|intros b_i].
    apply agree_bind.
    { unfold predict_factors. apply agree_for_each. intros f pred.
      unfold predict_body.
      apply agree_bind; [by apply agree_read_pu|intros p].
      apply agree_bind; [by apply agree_same|intros q].
      by apply agree_same. }
    intros pred.
    apply agree_bind; [by apply agree_read_bu|intros b0].
    apply agree_bind; [by apply agree_read_bu|intros b1].
    apply agree_bind; [by apply agree_write_bu|intros _].
    apply agree_bind; [by apply agree_same|intros c0].
    apply agree_bind; [by apply agree_same|intros c1].
    apply agree_bind;
      [apply agree_same; intros s; apply users_kept_by_write_bi|intros _].
    apply agree_bind; [by apply agree_same|intros old_qi].
    apply agree_bind; [by apply agree_same|intros new_qi].
    apply agree_bind.
    { unfold update_factors. apply agree_for_each. intros f [o n].
      unfold update_body.
      apply agree_bind; [by apply agree_read_pu|intros puf].
      apply agree_bind; [by apply agree_same|intros qif].
      apply agree_bind; [by apply agree_same|intros q].
      apply agree_bind; [by apply agree_same|intros o'].
      apply agree_bind; [by apply agree_same|intros q'].
      apply agree_bind; [by apply agree_same|intros n'].
      apply agree_bind; [by apply agree_read_pu|intros p].
      apply agree_bind; [by apply agree_write_pu|intros _].
      by apply agree_same. }
    intros [o n]. apply agree_same. intros s. apply users_kept_by_commit. }
  by destruct (Hagree st (conj Hbu Hpu)) as [Heq _].
Qed.

End Wraparound.

Lemma negative_user_wraps_witness :
  run_epoch_row 3%float 1 0.1%float 0%float [1%float] ∅ ∅
    (Row (-1) 1 4%float) e2e_params
  = run_epoch_row 3%float 1 0.1%float 0%float [1%float] ∅ ∅
      (Row (Z.of_nat 2 + -1) 1 4%float) e2e_params.
Proof.
  exact (negative_user_wraps_in_training 3%float 1 0.1%float 0%float
           [1%float] ∅ ∅ 2 (-1) 1 4%float e2e_params eq_refl eq_refl
           ltac:(lia)).
Defined.

